(** * Duplication detection and failure classification

    A shallow embedding of [agent_service/test_analysis.py]: the classes
    [TestFailureAnalyzer], [DuplicationChecker] and [TestFlowOrchestrator].

    Modelling conventions.
    - A Python [str] is a [string] whose characters are code points below
      256; [lower], [strip] and the [\w] class follow Python on that range.
    - A Python [dict] is an association list in insertion order ([dict]).
    - A Python [set] of paths is a [gset string].
    - [open(...).read()] is a function from paths to an [outcome]: the
      content, or the exception raised.
    - [print] appends a line to an output log that the functions return
      next to their result.
    - [duplication_percentage] is an exact rational: the rounding of
      Python's binary floating point is not modelled. *)

From Stdlib Require Import Ascii String DecimalString QArith.
From stdpp Require Import base list strings gmap.

#[local] Set Warnings "-clear-no-such-hyp".
Local Open Scope nat_scope.

(** ** Characters and strings *)

Module Py.

Definition ord (c : ascii) : N := N_of_ascii c.

(** [str.isspace] on one character. *)
Definition isspace (c : ascii) : bool :=
  let n := ord c in
  ((9 <=? n) && (n <=? 13) || (28 <=? n) && (n <=? 32)
   || (n =? 133) || (n =? 160))%N.

Definition isupper (c : ascii) : bool :=
  let n := ord c in
  ((65 <=? n) && (n <=? 90)
   || (192 <=? n) && (n <=? 222) && negb (n =? 215))%N.

(** [str.lower] on one character. *)
Definition lower_char (c : ascii) : ascii :=
  if isupper c then ascii_of_N (ord c + 32) else c.

(** The class [\w] of [re] on [str] patterns. *)
Definition isword (c : ascii) : bool :=
  let n := ord c in
  ((48 <=? n) && (n <=? 57) || (65 <=? n) && (n <=? 90) || (n =? 95)
   || (97 <=? n) && (n <=? 122)
   || (n =? 170) || (n =? 178) || (n =? 179) || (n =? 181)
   || (n =? 185) || (n =? 186) || (188 <=? n) && (n <=? 190)
   || (192 <=? n) && negb (n =? 215) && negb (n =? 247))%N.

(** [s.lower()] *)
Fixpoint lower (s : string) : string :=
  match s with
  | EmptyString => EmptyString
  | String c s' => String (lower_char c) (lower s')
  end.

(** [s.lstrip()] *)
Fixpoint lstrip (s : string) : string :=
  match s with
  | EmptyString => EmptyString
  | String c s' => if isspace c then lstrip s' else s
  end.

(** [s.rstrip()] *)
Fixpoint rstrip (s : string) : string :=
  match s with
  | EmptyString => EmptyString
  | String c s' =>
      match rstrip s' with
      | EmptyString => if isspace c then EmptyString else String c EmptyString
      | r => String c r
      end
  end.

(** [s.strip()] *)
Definition strip (s : string) : string := rstrip (lstrip s).

(** [sub in s] *)
Fixpoint contains (sub s : string) : bool :=
  String.prefix sub s ||
  match s with
  | EmptyString => false
  | String _ s' => contains sub s'
  end.

(** [str(n)] for a natural number, as an f-string prints it. *)
Definition str_of_nat (n : nat) : string :=
  NilEmpty.string_of_uint (Nat.to_uint n).

End Py.

(** A [dict] with string keys, in insertion order. *)
Abbreviation dict V := (list (string * V)) (only parsing).

Section Dict.
Context {V : Type}.

(** [k in d] *)
Fixpoint dict_mem (k : string) (d : dict V) : bool :=
  match d with
  | [] => false
  | (k', _) :: d' => if decide (k = k') then true else dict_mem k d'
  end.

(** [d.get(k)] *)
Fixpoint dict_get (k : string) (d : dict V) : option V :=
  match d with
  | [] => None
  | (k', v) :: d' => if decide (k = k') then Some v else dict_get k d'
  end.

(** [d[k] = v]: an existing key keeps its position, a new one goes last. *)
Fixpoint dict_set (k : string) (v : V) (d : dict V) : dict V :=
  match d with
  | [] => [(k, v)]
  | (k', v') :: d' =>
      if decide (k = k') then (k', v) :: d' else (k', v') :: dict_set k v d'
  end.

End Dict.

(** ** TestFailureAnalyzer *)

Record FailureDetails := mkDetails {
  details_cause : string;
  details_fixes : list string
}.

Record TestFailureAnalyzer := mkAnalyzer {
  failure_patterns : dict FailureDetails
}.

(** [TestFailureAnalyzer.__init__] *)
Definition TestFailureAnalyzer_init : TestFailureAnalyzer :=
  {| failure_patterns := [
       ("NoSuchElementException",
        mkDetails "Locator not found on page"
          [ "Verify locator selector is correct";
            "Check if element exists in current page context";
            "Update locator in page object";
            "Add wait condition for element to appear";
            "Verify page has loaded completely" ]);
       ("StaleElementReferenceException",
        mkDetails "Element went stale (DOM refreshed)"
          [ "Add wait for element after action";
            "Re-find element before interaction";
            "Use explicit waits instead of implicit";
            "Add try-catch with re-find logic" ]);
       ("TimeoutException",
        mkDetails "Action took too long"
          [ "Increase timeout value";
            "Wait for element visibility instead of presence";
            "Check if element is clickable";
            "Verify page load is complete";
            "Check for loading spinners" ]);
       ("AssertionError",
        mkDetails "Expected value doesn't match actual"
          [ "Update expected value in test";
            "Check if element has correct content";
            "Verify test data is correct";
            "Add print statements to debug values";
            "Check for dynamic content changes" ]);
       ("ElementNotInteractableException",
        mkDetails "Element exists but cannot be clicked/typed"
          [ "Scroll element into view";
            "Wait for element to be clickable";
            "Check if element is covered by another";
            "Add explicit wait for element readiness";
            "Use JavaScript executor to click if needed" ]);
       ("InvalidElementStateException",
        mkDetails "Element is disabled or read-only"
          [ "Check if element is enabled";
            "Wait for element to be enabled";
            "Verify element is not disabled";
            "Check form validation state" ])
     ] |}.

Record Analysis := mkAnalysis {
  error_type : option string;
  cause : option string;
  fixes : list string;
  severity : string;
  recommended_actions : list string
}.

Definition set_severity (s : string) (a : Analysis) : Analysis :=
  mkAnalysis (error_type a) (cause a) (fixes a) s (recommended_actions a).

Definition set_recommended_actions (l : list string) (a : Analysis) : Analysis :=
  mkAnalysis (error_type a) (cause a) (fixes a) (severity a) l.

(** The loop [for error_type, details in self.failure_patterns.items()]
    with its [break] at the first marker found in the message. *)
Fixpoint match_error_type (items : dict FailureDetails)
    (error_message : string) (analysis : Analysis) : Analysis :=
  match items with
  | [] => analysis
  | (error_type, details) :: items' =>
      if Py.contains error_type error_message then
        mkAnalysis (Some error_type) (Some (details_cause details))
          (details_fixes details) (severity analysis)
          (recommended_actions analysis)
      else match_error_type items' error_message analysis
  end.

(** The [if]/[elif] chain under [# Determine severity]. *)
Definition determine_severity (error_message : string) : string :=
  if Py.contains "NoSuchElementException" error_message then "CRITICAL"
  else if Py.contains "TimeoutException" error_message then "HIGH"
  else if Py.contains "AssertionError" error_message then "MEDIUM"
  else "LOW".

(** The [if]/[elif] chain under [# Recommended actions]. *)
Definition recommend (analysis : Analysis) : Analysis :=
  if decide (severity analysis = "CRITICAL") then
    set_recommended_actions
      [ "1. Verify locators are correct and up-to-date";
        "2. Check if page structure has changed";
        "3. Update page object with new locators";
        "4. Re-run test to verify fix" ] analysis
  else if decide (severity analysis = "HIGH") then
    set_recommended_actions
      [ "1. Increase timeout values";
        "2. Add explicit waits";
        "3. Check page load completeness";
        "4. Monitor for external delays" ] analysis
  else analysis.

(** [TestFailureAnalyzer.analyze_failure] *)
Definition analyze_failure (self : TestFailureAnalyzer)
    (error_message : string) : Analysis :=
  let analysis := mkAnalysis None None [] "LOW" [] in
  let analysis :=
    match_error_type (failure_patterns self) error_message analysis in
  let analysis := set_severity (determine_severity error_message) analysis in
  recommend analysis.



(** ** The two regular expressions of the checker

    Both patterns are a literal prefix, one or two greedy character-class
    runs and a literal delimiter that the class before it rejects, so
    backtracking never finds a second way to match at a position: the
    matcher below takes the longest run and then demands the delimiter. *)

Module Re.

Definition dquote : ascii := ascii_of_nat 34.

(** A literal at the head of [s]; what follows it. *)
Fixpoint lit (p s : string) : option string :=
  match p, s with
  | EmptyString, _ => Some s
  | String a p', String b s' => if decide (a = b) then lit p' s' else None
  | String _ _, EmptyString => None
  end.

(** The longest run of characters of class [P] at the head of [s], and
    what follows it. *)
Fixpoint span (P : ascii → bool) (s : string) : string * string :=
  match s with
  | EmptyString => (EmptyString, EmptyString)
  | String c s' =>
      if P c then let (run, rest) := span P s' in (String c run, rest)
      else (EmptyString, s)
  end.

(** [[P]+]: a run of at least one character. *)
Definition plus (P : ascii → bool) (s : string) : option (string * string) :=
  match span P s with
  | (EmptyString, _) => None
  | (run, rest) => Some (run, rest)
  end.

(** [(When|Then|Given)] *)
Definition keyword (s : string) : option (string * string) :=
  match lit "When" s with
  | Some rest => Some ("When", rest)
  | None =>
      match lit "Then" s with
      | Some rest => Some ("Then", rest)
      | None =>
          match lit "Given" s with
          | Some rest => Some ("Given", rest)
          | None => None
          end
      end
  end.

(** [@(When|Then|Given)\(Q([^Q]+)Q\)] at the head of [s], where [Q] stands
    for the double quote: the two groups and what follows the match. *)
Definition step_annotation (s : string)
    : option ((string * string) * string) :=
  s ← lit "@" s;
  '(pattern_type, s) ← keyword s;
  s ← lit (String "(" (String dquote "")) s;
  '(pattern_text, s) ← plus (λ c, negb (bool_decide (c = dquote))) s;
  s ← lit (String dquote ")") s;
  Some ((pattern_type, pattern_text), s).

(** [public static final By (\w+) = By\.([^;]+);] at the head of [s]. *)
Definition locator_declaration (s : string)
    : option ((string * string) * string) :=
  s ← lit "public static final By " s;
  '(locator_name, s) ← plus Py.isword s;
  s ← lit " = By." s;
  '(locator_value, s) ← plus (λ c, negb (bool_decide (c = ";"%char))) s;
  s ← lit ";" s;
  Some ((locator_name, locator_value), s).

(** [re.findall]: scan from left to right; after a match at a position
    the scan resumes where the match ended ([skip] counts the characters
    of the match still to pass), otherwise one character further on. *)
Fixpoint findall_from {G : Type} (m : string → option (G * string))
    (skip : nat) (s : string) : list G :=
  match s with
  | EmptyString => []
  | String _ s' =>
      match skip with
      | S k => findall_from m k s'
      | O =>
          match m s with
          | Some (groups, rest) =>
              groups ::
              findall_from m (String.length s - String.length rest - 1) s'
          | None => findall_from m 0 s'
          end
      end
  end.

Definition findall {G : Type} (m : string → option (G * string))
    (s : string) : list G :=
  findall_from m 0 s.

End Re.

(** ** Exceptions *)

Inductive outcome (A : Type) : Type :=
  | Returned (a : A)
  | Raised (e : string).
Global Arguments Returned {A} a.
Global Arguments Raised {A} e.

(** ** DuplicationChecker *)

Record StepOccurrence := mkStepOccurrence {
  step_file : string;
  step_pattern : string;
  step_type : string
}.

Record DuplicateStep := mkDuplicateStep {
  dup_step_pattern : string;
  dup_step_count : nat;
  dup_step_files : list string
}.

Record StepReport := mkStepReport {
  total_steps : nat;
  duplicate_steps : list DuplicateStep;
  files_affected : gset string;
  step_duplication_percentage : Q
}.

Record LocatorOccurrence := mkLocatorOccurrence {
  locator_file : string;
  locator_name : string;
  locator_value : string
}.

Record DuplicateLocator := mkDuplicateLocator {
  dup_locator_value : string;
  dup_locator_count : nat;
  dup_locator_locations : list string
}.

Record PageReport := mkPageReport {
  total_locators : nat;
  duplicate_locators : list DuplicateLocator;
  pages_affected : gset string;
  page_duplication_percentage : Q
}.

(** [(dups / total) * 100] *)
Definition percentage (dups total : nat) : Q :=
  (inject_Z (Z.of_nat dups) / inject_Z (Z.of_nat total)) * 100.

(** [if key not in d: d[key] = []] followed by [d[key].append(x)]. *)
Definition dict_append {O : Type} (key : string) (x : O)
    (d : dict (list O)) : dict (list O) :=
  let d := if dict_mem key d then d else dict_set key [] d in
  dict_set key (default [] (dict_get key d) ++ [x]) d.

Section DuplicationChecker.

(** [open(file_path, 'r', encoding='utf-8').read()] *)
Variable open_read : string → outcome string.

(** *** check_step_duplication *)

(** The body of [for pattern_type, pattern_text in patterns]. *)
Definition step_body (file_path : string)
    (st : StepReport * dict (list StepOccurrence))
    (m : string * string) : StepReport * dict (list StepOccurrence) :=
  let '(report, step_patterns) := st in
  let '(pattern_type, pattern_text) := m in
  let report :=
    mkStepReport (total_steps report + 1) (duplicate_steps report)
      (files_affected report) (step_duplication_percentage report) in
  let key := Py.lower pattern_text in
  let step_patterns :=
    dict_append key (mkStepOccurrence file_path pattern_text pattern_type)
      step_patterns in
  let report :=
    mkStepReport (total_steps report) (duplicate_steps report)
      ({[file_path]} ∪ files_affected report)
      (step_duplication_percentage report) in
  (report, step_patterns).

(** The [try] block for one file. *)
Definition step_try (file_path : string)
    (st : StepReport * dict (list StepOccurrence))
    : outcome (StepReport * dict (list StepOccurrence)) :=
  match open_read file_path with
  | Raised e => Raised e
  | Returned content =>
      let patterns := Re.findall Re.step_annotation content in
      Returned (fold_left (step_body file_path) patterns st)
  end.

(** One turn of [for file_path in step_files], with its [except]. *)
Definition step_file_turn
    (acc : StepReport * dict (list StepOccurrence) * list string)
    (file_path : string)
    : StepReport * dict (list StepOccurrence) * list string :=
  let '(st, out) := acc in
  match step_try file_path st with
  | Returned st' => (st', out)
  | Raised e => (st, out ++ ["Error reading " +:+ file_path +:+ ": " +:+ e])
  end.

(** The loop under [# Find duplicates]. *)
Definition find_duplicate_steps (step_patterns : dict (list StepOccurrence))
    : list DuplicateStep :=
  fold_left
    (λ dups '(pattern, occurrences),
       if 1 <? length occurrences then
         dups ++ [mkDuplicateStep pattern (length occurrences)
                    (map step_file occurrences)]
       else dups)
    step_patterns [].

Definition check_step_duplication (step_files : list string)
    : StepReport * list string :=
  let report := mkStepReport 0 [] ∅ 0 in
  let step_patterns := [] in
  let '(report, step_patterns, out) :=
    fold_left step_file_turn step_files (report, step_patterns, []) in
  let report :=
    mkStepReport (total_steps report) (find_duplicate_steps step_patterns)
      (files_affected report) (step_duplication_percentage report) in
  let report :=
    if 0 <? total_steps report then
      mkStepReport (total_steps report) (duplicate_steps report)
        (files_affected report)
        (percentage (length (duplicate_steps report)) (total_steps report))
    else report in
  (report, out).

(** *** check_page_object_duplication *)

(** The body of [for locator_name, locator_value in locators]. *)
Definition page_body (file_path : string)
    (st : PageReport * dict (list LocatorOccurrence))
    (m : string * string) : PageReport * dict (list LocatorOccurrence) :=
  let '(report, locator_map) := st in
  let '(locator_name, locator_value) := m in
  let report :=
    mkPageReport (total_locators report + 1) (duplicate_locators report)
      (pages_affected report) (page_duplication_percentage report) in
  let normalized := Py.lower (Py.strip locator_value) in
  let locator_map :=
    dict_append normalized
      (mkLocatorOccurrence file_path locator_name locator_value)
      locator_map in
  let report :=
    mkPageReport (total_locators report) (duplicate_locators report)
      ({[file_path]} ∪ pages_affected report)
      (page_duplication_percentage report) in
  (report, locator_map).

Definition page_try (file_path : string)
    (st : PageReport * dict (list LocatorOccurrence))
    : outcome (PageReport * dict (list LocatorOccurrence)) :=
  match open_read file_path with
  | Raised e => Raised e
  | Returned content =>
      let locators := Re.findall Re.locator_declaration content in
      Returned (fold_left (page_body file_path) locators st)
  end.

Definition page_file_turn
    (acc : PageReport * dict (list LocatorOccurrence) * list string)
    (file_path : string)
    : PageReport * dict (list LocatorOccurrence) * list string :=
  let '(st, out) := acc in
  match page_try file_path st with
  | Returned st' => (st', out)
  | Raised e => (st, out ++ ["Error reading " +:+ file_path +:+ ": " +:+ e])
  end.

Definition find_duplicate_locators
    (locator_map : dict (list LocatorOccurrence)) : list DuplicateLocator :=
  fold_left
    (λ dups '(value, occurrences),
       if 1 <? length occurrences then
         dups ++ [mkDuplicateLocator value (length occurrences)
                    (map (λ o, locator_file o +:+ "::" +:+ locator_name o)
                       occurrences)]
       else dups)
    locator_map [].

Definition check_page_object_duplication (page_files : list string)
    : PageReport * list string :=
  let report := mkPageReport 0 [] ∅ 0 in
  let locator_map := [] in
  let '(report, locator_map, out) :=
    fold_left page_file_turn page_files (report, locator_map, []) in
  let report :=
    mkPageReport (total_locators report)
      (find_duplicate_locators locator_map)
      (pages_affected report) (page_duplication_percentage report) in
  let report :=
    if 0 <? total_locators report then
      mkPageReport (total_locators report) (duplicate_locators report)
        (pages_affected report)
        (percentage (length (duplicate_locators report))
           (total_locators report))
    else report in
  (report, out).

End DuplicationChecker.

(** ** TestFlowOrchestrator *)

Record PreCheckReport := mkPreCheckReport {
  timestamp : string;
  duplication_check : option PageReport;
  locator_integrity : option unit;
  step_integrity : option StepReport;
  ready_to_execute : bool;
  issues : list string
}.

Section TestFlowOrchestrator.

Variable open_read : string → outcome string.
(** [self._find_page_files()], [self._find_step_files()] and
    [self._get_timestamp()]: what the file discovery and the clock
    return during the call. *)
Variable find_page_files : list string.
Variable find_step_files : list string.
Variable get_timestamp : string.

Definition newline : string := String (ascii_of_nat 10) "".

(** The block under [if page_files:]. *)
Definition check_pages (page_files : list string)
    (acc : PreCheckReport * list string) : PreCheckReport * list string :=
  let '(pre_check_report, out) := acc in
  match page_files with
  | [] => (pre_check_report, out)
  | _ :: _ =>
      let '(dup_locators, printed) :=
        check_page_object_duplication open_read page_files in
      let out := out ++ printed in
      let pre_check_report :=
        mkPreCheckReport (timestamp pre_check_report) (Some dup_locators)
          (locator_integrity pre_check_report)
          (step_integrity pre_check_report)
          (ready_to_execute pre_check_report) (issues pre_check_report) in
      match duplicate_locators dup_locators with
      | [] => (pre_check_report, out)
      | _ :: _ =>
          let n := Py.str_of_nat (length (duplicate_locators dup_locators)) in
          (mkPreCheckReport (timestamp pre_check_report)
             (duplication_check pre_check_report)
             (locator_integrity pre_check_report)
             (step_integrity pre_check_report)
             false
             (issues pre_check_report ++ ["Duplicate locators found: " +:+ n]),
           out ++ ["[!] WARNING: " +:+ n +:+ " duplicate locators"])
      end
  end.

(** The block under [if step_files:]. *)
Definition check_steps (step_files : list string)
    (acc : PreCheckReport * list string) : PreCheckReport * list string :=
  let '(pre_check_report, out) := acc in
  match step_files with
  | [] => (pre_check_report, out)
  | _ :: _ =>
      let '(dup_steps, printed) :=
        check_step_duplication open_read step_files in
      let out := out ++ printed in
      let pre_check_report :=
        mkPreCheckReport (timestamp pre_check_report)
          (duplication_check pre_check_report)
          (locator_integrity pre_check_report)
          (Some dup_steps)
          (ready_to_execute pre_check_report) (issues pre_check_report) in
      match duplicate_steps dup_steps with
      | [] => (pre_check_report, out)
      | _ :: _ =>
          let n := Py.str_of_nat (length (duplicate_steps dup_steps)) in
          (mkPreCheckReport (timestamp pre_check_report)
             (duplication_check pre_check_report)
             (locator_integrity pre_check_report)
             (step_integrity pre_check_report)
             (ready_to_execute pre_check_report)
             (issues pre_check_report ++ ["Duplicate steps found: " +:+ n]),
           out ++ ["[!] WARNING: " +:+ n +:+ " duplicate steps"])
      end
  end.

Definition check_before_execution : PreCheckReport * list string :=
  let pre_check_report :=
    mkPreCheckReport get_timestamp None None None true [] in
  let out := [newline +:+ "[*] Checking for code duplication..."] in
  let page_files := find_page_files in
  let step_files := find_step_files in
  check_steps step_files (check_pages page_files (pre_check_report, out)).

End TestFlowOrchestrator.

(** ** Reference definitions the reports are compared with *)

(** The values of a list without repetition, in first-seen order. *)
Definition distinct (l : list string) : list string :=
  fold_left (λ seen k, if decide (k ∈ seen) then seen else seen ++ [k]) l [].

(** The members of [l] whose key is [k], in order. *)
Definition occurrences_of {O : Type} (key : O → string) (k : string)
    (l : list O) : list O :=
  filter (λ o, key o = k) l.

(** One group per distinct key, in first-seen order. *)
Definition group_by {O : Type} (key : O → string) (l : list O)
    : dict (list O) :=
  map (λ k, (k, occurrences_of key k l)) (distinct (map key l)).

(** The distinct keys with more than one member. *)
Definition duplicated_keys {O : Type} (key : O → string) (l : list O)
    : list string :=
  filter (λ k, 1 < length (occurrences_of key k l)) (distinct (map key l)).

(** Every step annotation found in the readable files, in scan order. *)
Definition extracted_steps (open_read : string → outcome string)
    (step_files : list string) : list StepOccurrence :=
  file_path ← step_files;
  match open_read file_path with
  | Returned content =>
      (λ '(pattern_type, pattern_text),
         mkStepOccurrence file_path pattern_text pattern_type)
        <$> Re.findall Re.step_annotation content
  | Raised _ => []
  end.

(** Every locator declaration found in the readable files, in scan order. *)
Definition extracted_locators (open_read : string → outcome string)
    (page_files : list string) : list LocatorOccurrence :=
  file_path ← page_files;
  match open_read file_path with
  | Returned content =>
      (λ '(name, value), mkLocatorOccurrence file_path name value)
        <$> Re.findall Re.locator_declaration content
  | Raised _ => []
  end.

Definition step_key (o : StepOccurrence) : string :=
  Py.lower (step_pattern o).

Definition locator_key (o : LocatorOccurrence) : string :=
  Py.lower (Py.strip (locator_value o)).

Definition locator_location (o : LocatorOccurrence) : string :=
  locator_file o +:+ "::" +:+ locator_name o.

(** The lines printed for the files that cannot be read. *)
Definition read_errors (open_read : string → outcome string)
    (files : list string) : list string :=
  file_path ← files;
  match open_read file_path with
  | Returned _ => []
  | Raised e => ["Error reading " +:+ file_path +:+ ": " +:+ e]
  end.

(** The entry reported for a group. *)
Definition step_group (g : string * list StepOccurrence) : DuplicateStep :=
  mkDuplicateStep g.1 (length g.2) (map step_file g.2).

Definition locator_group (g : string * list LocatorOccurrence)
    : DuplicateLocator :=
  mkDuplicateLocator g.1 (length g.2) (map locator_location g.2).

Fixpoint all_space (s : string) : bool :=
  match s with
  | EmptyString => true
  | String c s' => Py.isspace c && all_space s'
  end.




(** The entry that a report with duplicate groups adds to [issues]. *)
Definition locator_issue (p : PageReport) : list string :=
  match duplicate_locators p with
  | [] => []
  | _ :: _ =>
      ["Duplicate locators found: "
       +:+ Py.str_of_nat (length (duplicate_locators p))]
  end.

Definition step_issue (s : StepReport) : list string :=
  match duplicate_steps s with
  | [] => []
  | _ :: _ =>
      ["Duplicate steps found: "
       +:+ Py.str_of_nat (length (duplicate_steps s))]
  end.

(** ** Sample inputs *)

Module Sample.

Definition q : string := String Re.dquote "".

(** [public static final By LOGIN_BUTTON = By.id(Qlogin-btnQ);] *)
Definition login_page : string :=
  "public static final By LOGIN_BUTTON = By.id(" +:+ q +:+ "login-btn"
  +:+ q +:+ ");".

(** The same selector in other letter case, with a blank before [;]. *)
Definition submit_page : string :=
  "public static final By SUBMIT_BTN = By.ID(" +:+ q +:+ "Login-Btn"
  +:+ q +:+ ") ;".

Definition home_page : string :=
  "public static final By LOGO = By.cssSelector(" +:+ q +:+ ".logo"
  +:+ q +:+ ");".

(** Two annotations whose patterns differ in one leading blank. *)
Definition click_steps : string :=
  "@When(" +:+ q +:+ "I click" +:+ q +:+ ") void a() {} "
  +:+ "@When(" +:+ q +:+ " I click" +:+ q +:+ ") void b() {}".

(** Two annotations whose patterns differ in letter case. *)
Definition login_steps : string :=
  "@Given(" +:+ q +:+ "I am logged in" +:+ q +:+ ") void a() {} "
  +:+ "@Then(" +:+ q +:+ "I am Logged In" +:+ q +:+ ") void b() {}".

Definition open_read (file_path : string) : outcome string :=
  if decide (file_path = "LoginPage.java") then Returned login_page
  else if decide (file_path = "SubmitPage.java") then Returned submit_page
  else if decide (file_path = "HomePage.java") then Returned home_page
  else if decide (file_path = "ClickSteps.java") then Returned click_steps
  else if decide (file_path = "LoginSteps.java") then Returned login_steps
  else Raised ("[Errno 2] No such file or directory: '" +:+ file_path
               +:+ "'").

End Sample.

(** ** Further string operations *)

Module PyStr.

(** [sep.join(parts)] *)
Fixpoint join (sep : string) (parts : list string) : string :=
  match parts with
  | [] => ""
  | [x] => x
  | x :: parts' => x +:+ sep +:+ join sep parts'
  end.

(** [s * n] *)
Fixpoint repeat (s : string) (n : nat) : string :=
  match n with
  | O => ""
  | S n' => s +:+ repeat s n'
  end.

Definition LF : ascii := ascii_of_nat 10.

(** [s.split('\n')]: the pieces between line feeds; never empty. *)
Fixpoint split_lines (s : string) : list string :=
  match s with
  | EmptyString => [EmptyString]
  | String c s' =>
      if decide (c = LF) then EmptyString :: split_lines s'
      else
        match split_lines s' with
        | [] => [String c EmptyString]
        | line :: lines => String c line :: lines
        end
  end.

(** [s.encode('ascii', 'replace').decode('ascii')] *)
Fixpoint ascii_replace (s : string) : string :=
  match s with
  | EmptyString => EmptyString
  | String c s' =>
      String (if (Py.ord c <? 128)%N then c else "?"%char) (ascii_replace s')
  end.

(** [bool(s)] for a string. *)
Definition truthy (s : string) : bool :=
  match s with
  | EmptyString => false
  | String _ _ => true
  end.

(** [f"{x}"] for an optional string: [None] prints as its name. *)
Definition format_option (x : option string) : string :=
  default "None" x.

End PyStr.

(** ** TestFailureAnalyzer.suggest_fix_code *)

Definition fix_fallback : string :=
  "# Unable to suggest specific fix. See analyzer output.".

(** A triple-quoted template: a line feed, the lines, a line feed. *)
Definition template (lines : list string) : string :=
  newline +:+ PyStr.join newline lines +:+ newline.

(** [(By.ID, Q{element_name}Q)] with [Q] the double quote. *)
Definition by_id (element_name : string) : string :=
  "(By.ID, " +:+ Sample.q +:+ element_name +:+ Sample.q +:+ ")".

Definition fix_snippets (element_name : string) : dict string :=
  [ ("NoSuchElementException",
     template
       [ "# Fix: Add explicit wait for element";
         "WebDriverWait(driver, 10).until(";
         "    EC.presence_of_element_located(" +:+ by_id element_name +:+ ")";
         ")";
         "element = driver.find_element" +:+ by_id element_name ]);
    ("StaleElementReferenceException",
     template
       [ "# Fix: Re-find element before use";
         "try:";
         "    element = driver.find_element" +:+ by_id element_name;
         "    element.click()";
         "except StaleElementReferenceException:";
         "    # Re-find and retry";
         "    WebDriverWait(driver, 10).until(";
         "        EC.presence_of_element_located(" +:+ by_id element_name
           +:+ ")";
         "    )";
         "    element = driver.find_element" +:+ by_id element_name;
         "    element.click()" ]);
    ("TimeoutException",
     template
       [ "# Fix: Increase timeout and wait for clickability";
         "element = WebDriverWait(driver, 20).until(";
         "    EC.element_to_be_clickable(" +:+ by_id element_name +:+ ")";
         ")";
         "element.click()" ]);
    ("ElementNotInteractableException",
     template
       [ "# Fix: Scroll into view and wait for clickability";
         "element = driver.find_element" +:+ by_id element_name;
         "driver.execute_script(" +:+ Sample.q
           +:+ "arguments[0].scrollIntoView(true);" +:+ Sample.q
           +:+ ", element)";
         "WebDriverWait(driver, 10).until(";
         "    EC.element_to_be_clickable(" +:+ by_id element_name +:+ ")";
         ")";
         "element.click()" ]) ].

(** [fixes.get(error_type, fallback)] *)
Definition suggest_fix_code (error_type element_name : string) : string :=
  default fix_fallback (dict_get error_type (fix_snippets element_name)).

(** ** DuplicationChecker.generate_deduplication_suggestions *)

(** The keys the method reads from the report it is given; a key that the
    report lacks is [None]. *)
Record ReportDict := mkReportDict {
  get_duplicate_steps : option (list DuplicateStep);
  get_duplicate_locators : option (list DuplicateLocator);
  get_duplication_percentage : option Q
}.

(** The two reports of the checker, seen as such a dictionary. *)
Definition step_report_dict (r : StepReport) : ReportDict :=
  mkReportDict (Some (duplicate_steps r)) None
    (Some (step_duplication_percentage r)).

Definition page_report_dict (r : PageReport) : ReportDict :=
  mkReportDict None (Some (duplicate_locators r))
    (Some (page_duplication_percentage r)).

(** The two code points of the warning sign that opens the last heading;
    they lie outside the modelled range and are kept as their UTF-8 bytes. *)
Definition warning_sign : string := "⚠️".

Definition step_suggestions (n : nat) : list string :=
  [ "=== STEP DEDUPLICATION SUGGESTIONS ===";
    "Found " +:+ Py.str_of_nat n +:+ " duplicate step definitions";
    newline +:+ "Options:";
    "1. Create shared step definition file";
    "2. Use inheritance for similar steps";
    "3. Create parameterized generic steps";
    "4. Remove redundant step files" ].

Definition locator_suggestions (n : nat) : list string :=
  [ newline +:+ "=== LOCATOR DEDUPLICATION SUGGESTIONS ===";
    "Found " +:+ Py.str_of_nat n +:+ " duplicate locators";
    newline +:+ "Options:";
    "1. Create shared locator constants file";
    "2. Use inheritance in page objects";
    "3. Create base page with common locators";
    "4. Use composition for shared elements" ].

Definition high_duplication_warning : list string :=
  [ newline +:+ warning_sign +:+ "  HIGH DUPLICATION: > 20%";
    "Recommend refactoring to reduce maintenance burden" ].

Definition generate_deduplication_suggestions
    (duplication_report : ReportDict) : list string :=
  let suggestions := [] in
  let suggestions :=
    match get_duplicate_steps duplication_report with
    | Some (d :: ds) => suggestions ++ step_suggestions (length (d :: ds))
    | _ => suggestions
    end in
  let suggestions :=
    match get_duplicate_locators duplication_report with
    | Some (d :: ds) => suggestions ++ locator_suggestions (length (d :: ds))
    | _ => suggestions
    end in
  let suggestions :=
    if Qlt_le_dec 20 (default 0%Q (get_duplication_percentage duplication_report))
    then suggestions ++ high_duplication_warning
    else suggestions in
  suggestions.

(** ** TestFlowOrchestrator.analyze_test_failure *)

(** [for i, x in enumerate(l, start)]: the items with their numbers. *)
Fixpoint enumerate {A : Type} (start : nat) (l : list A) : list (nat * A) :=
  match l with
  | [] => []
  | x :: l' => (start, x) :: enumerate (S start) l'
  end.

(** The analysis of [self.analyzer] and the lines printed, one per call of
    [print]. *)
Definition analyze_test_failure (analyzer : TestFailureAnalyzer)
    (error_log : string) : Analysis * list string :=
  let analysis := analyze_failure analyzer error_log in
  let out :=
    [ newline +:+ PyStr.repeat "=" 60;
      "TEST FAILURE ANALYSIS";
      PyStr.repeat "=" 60;
      newline +:+ "Error Type: "
        +:+ PyStr.format_option (error_type analysis);
      "Severity: " +:+ severity analysis;
      "Cause: " +:+ PyStr.format_option (cause analysis);
      newline +:+ "Suggested Fixes:" ] in
  let out :=
    out ++ map (λ '(i, fix_text), "  " +:+ Py.str_of_nat i +:+ ". " +:+ fix_text)
             (enumerate 1 (fixes analysis)) in
  let out :=
    match recommended_actions analysis with
    | [] => out
    | _ :: _ =>
        (out ++ [newline +:+ "Recommended Actions:"])
        ++ map (λ action, "  " +:+ action) (recommended_actions analysis)
    end in
  (analysis, out).

(** ** AdvancedE2EOrchestrator *)

Section AdvancedE2EOrchestrator.

(** Whether [print] of a text succeeds on the standard output; on [false]
    it raises [UnicodeEncodeError] before anything is written. *)
Variable stdout_encodes : string → bool.
(** [f"{x:.1f}"] for a percentage. *)
Variable format_1f : Q → string.

(** [AdvancedE2EOrchestrator.log]: the line printed. *)
Definition log (message level : string) : list string :=
  let symbols : dict string :=
    [ ("INFO", "[*]"); ("SUCCESS", "[OK]"); ("ERROR", "[!]");
      ("WARNING", "[?]"); ("ANALYSIS", "[~]") ] in
  let symbol := default "[*]" (dict_get level symbols) in
  if stdout_encodes (symbol +:+ " " +:+ message)
  then [symbol +:+ " " +:+ message]
  else [symbol +:+ " " +:+ PyStr.ascii_replace message].

(** [AdvancedE2EOrchestrator.log_section] *)
Definition log_section (title : string) : list string :=
  [ newline +:+ PyStr.repeat "=" 70;
    "  " +:+ title;
    PyStr.repeat "=" 70 +:+ newline ].

(** The test of the list comprehension over the lines of the output. *)
Definition is_failure_line (line : string) : bool :=
  Py.contains "FAILED" line || Py.contains "ERROR" line
  || Py.contains "Exception" line.

(** The body of [for failure_line in failure_lines[:3]]. *)
Definition analyze_failure_line (out : list string) (failure_line : string)
    : list string :=
  if PyStr.truthy (Py.strip failure_line) then
    let analysis := analyze_failure TestFailureAnalyzer_init failure_line in
    match error_type analysis with
    | Some (String c k) =>
        let out :=
          out ++ log ("Error: " +:+ String c k) "ANALYSIS"
              ++ log ("Severity: " +:+ severity analysis) "WARNING"
              ++ log ("Cause: " +:+ PyStr.format_option (cause analysis))
                   "INFO"
              ++ log (newline +:+ "Suggested Fixes:") "INFO" in
        fold_left
          (λ out '(i, fix_text),
             out ++ log ("  " +:+ Py.str_of_nat i +:+ ". " +:+ fix_text)
                      "INFO")
          (enumerate 1 (take 3 (fixes analysis))) out
    | _ => out
    end
  else out.

(** [AdvancedE2EOrchestrator.analyze_test_failures]: the value returned and
    the lines printed. *)
Definition analyze_test_failures (test_output : string)
    : bool * list string :=
  let out := log_section "STEP 4: Analyzing Test Failures" in
  let failure_lines :=
    List.filter is_failure_line (PyStr.split_lines test_output) in
  match failure_lines with
  | [] =>
      (true, out ++ log "No failures detected - all tests passed!" "SUCCESS")
  | _ :: _ =>
      let out :=
        out ++ log ("Found " +:+ Py.str_of_nat (length failure_lines)
                    +:+ " failure indicators" +:+ newline) "WARNING" in
      (false, fold_left analyze_failure_line (take 3 failure_lines) out)
  end.

Variable open_read : string → outcome string.
Variable find_page_files : list string.
Variable find_step_files : list string.
Variable get_timestamp : string.

(** The block under [if pre_check_report.get("duplication_check")]. A
    report dictionary is never empty, so the test is on its presence. *)
Definition show_duplication_check (pre_check_report : PreCheckReport)
    : list string :=
  match duplication_check pre_check_report with
  | None => []
  | Some dup_report =>
      log ("Locator Duplication: "
           +:+ format_1f (page_duplication_percentage dup_report) +:+ "%")
        "ANALYSIS"
      ++ match duplicate_locators dup_report with
         | [] => []
         | _ :: _ =>
             log ("  Found "
                  +:+ Py.str_of_nat (length (duplicate_locators dup_report))
                  +:+ " duplicate locators") "WARNING"
             ++ flat_map
                  (λ dup,
                     log ("    - Used in "
                          +:+ Py.str_of_nat (dup_locator_count dup)
                          +:+ " locations") "INFO")
                  (take 3 (duplicate_locators dup_report))
         end
  end.

(** The block under [if pre_check_report.get("step_integrity")]. *)
Definition show_step_integrity (pre_check_report : PreCheckReport)
    : list string :=
  match step_integrity pre_check_report with
  | None => []
  | Some step_report =>
      match duplicate_steps step_report with
      | [] => []
      | _ :: _ =>
          log ("Step Duplication: "
               +:+ Py.str_of_nat (length (duplicate_steps step_report))
               +:+ " duplicates") "WARNING"
      end
  end.

(** [AdvancedE2EOrchestrator.run_pre_execution_checks]: the report returned
    and the lines printed. *)
Definition run_pre_execution_checks : PreCheckReport * list string :=
  let out := log_section "STEP 0: PRE-EXECUTION CHECKS" in
  let out :=
    out ++ ["Checking for code duplication and integrity..." +:+ newline] in
  let '(pre_check_report, printed) :=
    check_before_execution open_read find_page_files find_step_files
      get_timestamp in
  let out := out ++ printed in
  let out := out ++ show_duplication_check pre_check_report in
  let out := out ++ show_step_integrity pre_check_report in
  let out :=
    if ready_to_execute pre_check_report
    then out ++ log "Framework ready for execution" "SUCCESS"
    else out ++ log "Framework has issues - see above" "WARNING" in
  (pre_check_report, out).

End AdvancedE2EOrchestrator.

(** ** Vocabulary of the further results *)

Fixpoint all_chars (P : ascii → bool) (s : string) : bool :=
  match s with
  | EmptyString => true
  | String c s' => P c && all_chars P s'
  end.

Definition critical_actions : list string :=
  [ "1. Verify locators are correct and up-to-date";
    "2. Check if page structure has changed";
    "3. Update page object with new locators";
    "4. Re-run test to verify fix" ].

Definition high_actions : list string :=
  [ "1. Increase timeout values";
    "2. Add explicit waits";
    "3. Check page load completeness";
    "4. Monitor for external delays" ].

(** The error types for which [suggest_fix_code] has a snippet. *)
Definition snippet_types : list string :=
  [ "NoSuchElementException"; "StaleElementReferenceException";
    "TimeoutException"; "ElementNotInteractableException" ].

(** A marker of the built-in signature table occurs in the line. *)
Definition has_known_marker (line : string) : bool :=
  existsb (λ kd : string * FailureDetails, Py.contains kd.1 line)
    (failure_patterns TestFailureAnalyzer_init).

(** The lines that [log] printed at level ANALYSIS. *)
Definition analysis_lines (out : list string) : list string :=
  List.filter (String.prefix "[~] ") out.

(** A text without a line feed. *)
Definition no_line_feed (m : string) : bool :=
  all_chars (λ c, negb (bool_decide (c = PyStr.LF))) m.

(** A text of ASCII characters only. *)
Definition is_ascii (m : string) : bool :=
  all_chars (λ c, (Py.ord c <? 128)%N) m.

(** ** Dictionaries and grouping *)

Section Grouping.
Context {O : Type} (key : O → string).

Lemma distinct_snoc (l : list string) (k : string) :
  distinct (l ++ [k]) =
  if decide (k ∈ distinct l) then distinct l else distinct l ++ [k].
Proof. unfold distinct. by rewrite fold_left_app. Qed.

Lemma elem_of_distinct (l : list string) (k : string) :
  k ∈ distinct l ↔ k ∈ l.
Proof.
  induction l as [|x l IH] using rev_ind.
  - done.
  - rewrite distinct_snoc, elem_of_app, list_elem_of_singleton.
    destruct (decide (x ∈ distinct l)) as [Hx|Hx].
    + rewrite IH. split; [tauto|]. intros [?| ->]; [done|]. by apply IH.
    + rewrite elem_of_app, list_elem_of_singleton, IH. tauto.
Qed.

Lemma NoDup_distinct (l : list string) : NoDup (distinct l).
Proof.
  induction l as [|x l IH] using rev_ind.
  - constructor.
  - rewrite distinct_snoc. case_decide; [done|].
    apply NoDup_app. split_and!; [done| |apply NoDup_singleton].
    intros y Hy ->%list_elem_of_singleton. done.
Qed.

Lemma occurrences_of_snoc (k : string) (l : list O) (o : O) :
  occurrences_of key k (l ++ [o]) =
  occurrences_of key k l ++ (if decide (key o = k) then [o] else []).
Proof.
  unfold occurrences_of. rewrite filter_app. reflexivity.
Qed.

Lemma occurrences_of_nil (k : string) (l : list O) :
  k ∉ map key l → occurrences_of key k l = [].
Proof.
  intros Hk. unfold occurrences_of.
  induction l as [|o l IH]; [done|].
  rewrite filter_cons. simpl in Hk. rewrite not_elem_of_cons in Hk.
  destruct Hk as [Hne Hk]. case_decide; [congruence|]. by apply IH.
Qed.

Lemma dict_mem_keys {V : Type} (k : string) (d : dict V) :
  dict_mem k d = bool_decide (k ∈ d.*1).
Proof.
  induction d as [|[k' v] d IH]; simpl.
  - done.
  - destruct (decide (k = k')) as [->|Hk].
    + symmetry. apply bool_decide_eq_true. left.
    + rewrite IH. apply bool_decide_ext. rewrite elem_of_cons.
      split; [by right | by intros [?|?]].
Qed.

Lemma dict_set_new {V : Type} (k : string) (v : V) (d : dict V) :
  k ∉ d.*1 → dict_set k v d = d ++ [(k, v)].
Proof.
  induction d as [|[k' v'] d IH]; simpl; [done|].
  rewrite not_elem_of_cons. intros [Hne Hk].
  case_decide; [done|]. by rewrite IH.
Qed.

Lemma dict_get_tabulate {V : Type} (f : string → V) (ks : list string)
    (k : string) :
  k ∈ ks → dict_get k (map (λ k', (k', f k')) ks) = Some (f k).
Proof.
  induction ks as [|k' ks IH]; simpl.
  - by intros ?%elem_of_nil.
  - intros Hk. case_decide; [by subst|].
    apply IH. apply elem_of_cons in Hk as [?|?]; done.
Qed.

Lemma dict_set_tabulate {V : Type} (f g : string → V) (ks : list string)
    (k : string) :
  NoDup ks → k ∈ ks → (∀ k', k' ≠ k → g k' = f k') →
  dict_set k (g k) (map (λ k', (k', f k')) ks) = map (λ k', (k', g k')) ks.
Proof.
  intros Hnd Hk Hfg. induction Hnd as [|k' ks Hk' Hnd IH]; simpl.
  - by apply elem_of_nil in Hk.
  - case_decide as Heq.
    + subst k'. f_equal. apply map_ext_in. intros k' Hin.
      rewrite Hfg; [done|]. intros ->. by apply list_elem_of_In in Hin.
    + rewrite (Hfg k') by congruence. f_equal. apply IH.
      apply elem_of_cons in Hk as [?|?]; done.
Qed.

Lemma tabulate_keys {V : Type} (f : string → V) (ks : list string) :
  (map (λ k', (k', f k')) ks).*1 = ks.
Proof. induction ks; simpl; by f_equal. Qed.

(** Appending the members one by one builds the groups. *)
Lemma fold_dict_append (l : list O) :
  fold_left (λ d o, dict_append (key o) o d) l [] = group_by key l.
Proof.
  induction l as [|o l IH] using rev_ind; [done|].
  rewrite fold_left_app. simpl. rewrite IH. clear IH.
  unfold group_by, dict_append.
  rewrite map_app. change (map key [o]) with [key o].
  rewrite distinct_snoc.
  rewrite dict_mem_keys, tabulate_keys.
  destruct (decide (key o ∈ distinct (map key l))) as [Hin|Hnin].
  - rewrite bool_decide_eq_true_2 by done.
    rewrite dict_get_tabulate by done. simpl.
    set (g := λ k, occurrences_of key k (l ++ [o])).
    replace (occurrences_of key (key o) l ++ [o]) with (g (key o)).
    2:{ unfold g. rewrite occurrences_of_snoc. by rewrite decide_True. }
    apply dict_set_tabulate; [apply NoDup_distinct|done|].
    intros k' Hne. unfold g. rewrite occurrences_of_snoc.
    rewrite decide_False by done. by rewrite app_nil_r.
  - rewrite bool_decide_eq_false_2 by done.
    rewrite (dict_set_new _ []) by (by rewrite tabulate_keys).
    assert (dict_get (key o)
              (map (λ k, (k, occurrences_of key k l)) (distinct (map key l))
               ++ [(key o, [])]) = Some []) as ->.
    { clear -Hnin. induction (distinct (map key l)) as [|k ks IH]; simpl.
      - by rewrite decide_True.
      - apply not_elem_of_cons in Hnin as [? ?].
        rewrite decide_False by done. by apply IH. }
    simpl.
    assert (∀ (d : dict (list O)) k v v', k ∉ d.*1 →
              dict_set k v' (d ++ [(k, v)]) = d ++ [(k, v')]) as Hset.
    { clear. intros d k v v'. induction d as [|[k' w] d IH]; simpl.
      - intros _. by rewrite decide_True.
      - rewrite not_elem_of_cons. intros [? ?].
        rewrite decide_False by done. by rewrite IH. }
    rewrite Hset by (by rewrite tabulate_keys).
    rewrite map_app. simpl. f_equal.
    + apply map_ext_in. intros k Hk. f_equal.
      rewrite occurrences_of_snoc, decide_False, app_nil_r; [done|].
      intros <-. by apply list_elem_of_In in Hk.
    + rewrite occurrences_of_snoc, decide_True by done.
      rewrite occurrences_of_nil; [done|].
      by rewrite <- elem_of_distinct.
Qed.

End Grouping.

(** ** The scanning loops *)

Lemma filter_fmap_comm {A B : Type} (f : A → B) (P : B → Prop)
    `{!∀ b, Decision (P b)} (l : list A) :
  filter P (f <$> l) = f <$> filter (P ∘ f) l.
Proof.
  induction l as [|a l IH]; [done|].
  rewrite fmap_cons, !filter_cons. simpl.
  destruct (decide (P (f a))); by rewrite IH.
Qed.

Lemma find_duplicate_steps_filter (d : dict (list StepOccurrence)) :
  find_duplicate_steps d = step_group <$> filter (λ g, 1 < length g.2) d.
Proof.
  unfold find_duplicate_steps.
  enough (∀ acc,
    fold_left
      (λ dups '(pattern, occurrences),
         if 1 <? length occurrences then
           dups ++ [mkDuplicateStep pattern (length occurrences)
                      (map step_file occurrences)]
         else dups) d acc
    = acc ++ (step_group <$> filter (λ g, 1 < length g.2) d)) as H
    by apply (H []).
  induction d as [|[k occs] d IH]; intros acc.
  - simpl. by rewrite app_nil_r.
  - rewrite filter_cons. cbn [fold_left snd]. rewrite IH.
    destruct (Nat.ltb_spec 1 (length occs)).
    + rewrite decide_True by done. by rewrite <- app_assoc.
    + rewrite decide_False by lia. done.
Qed.

Lemma find_duplicate_locators_filter (d : dict (list LocatorOccurrence)) :
  find_duplicate_locators d
  = locator_group <$> filter (λ g, 1 < length g.2) d.
Proof.
  unfold find_duplicate_locators.
  enough (∀ acc,
    fold_left
      (λ dups '(value, occurrences),
         if 1 <? length occurrences then
           dups ++ [mkDuplicateLocator value (length occurrences)
                      (map (λ o, locator_file o +:+ "::" +:+ locator_name o)
                         occurrences)]
         else dups) d acc
    = acc ++ (locator_group <$> filter (λ g, 1 < length g.2) d)) as H
    by apply (H []).
  induction d as [|[k occs] d IH]; intros acc.
  - simpl. by rewrite app_nil_r.
  - rewrite filter_cons. cbn [fold_left snd]. rewrite IH.
    destruct (Nat.ltb_spec 1 (length occs)).
    + rewrite decide_True by done. by rewrite <- app_assoc.
    + rewrite decide_False by lia. done.
Qed.

(** The reported groups of a grouping are its duplicated keys, in order. *)
Lemma duplicate_groups_of_group_by {O : Type} (key : O → string)
    (l : list O) :
  filter (λ g : string * list O, 1 < length g.2) (group_by key l)
  = (λ k, (k, occurrences_of key k l)) <$> duplicated_keys key l.
Proof.
  exact (filter_fmap_comm (λ k, (k, occurrences_of key k l))
           (λ g, 1 < length g.2) (distinct (map key l))).
Qed.

Section Scan.
Variable open_read : string → outcome string.

Lemma step_body_fold (file_path : string) (ms : list (string * string))
    (report : StepReport) (d : dict (list StepOccurrence)) :
  let occs :=
    (λ '(pattern_type, pattern_text),
       mkStepOccurrence file_path pattern_text pattern_type) <$> ms in
  fold_left (step_body file_path) ms (report, d)
  = (mkStepReport (total_steps report + length occs)
       (duplicate_steps report)
       (list_to_set (step_file <$> occs) ∪ files_affected report)
       (step_duplication_percentage report),
     fold_left (λ d o, dict_append (step_key o) o d) occs d).
Proof.
  revert report d. induction ms as [|[ty text] ms IH]; intros report d.
  - destruct report. simpl. do 2 f_equal; first [lia | set_solver].
  - simpl. rewrite IH. simpl.
    do 2 f_equal; unfold fmap; first [lia | set_solver].
Qed.

Lemma step_loop (files : list string) (report : StepReport)
    (d : dict (list StepOccurrence)) (out : list string) :
  let ex := extracted_steps open_read files in
  fold_left (step_file_turn open_read) files (report, d, out)
  = (mkStepReport (total_steps report + length ex)
       (duplicate_steps report)
       (list_to_set (step_file <$> ex) ∪ files_affected report)
       (step_duplication_percentage report),
     fold_left (λ d o, dict_append (step_key o) o d) ex d,
     out ++ read_errors open_read files).
Proof.
  revert report d out.
  induction files as [|f files IH]; intros report d out; cbv zeta.
  - destruct report. simpl. rewrite app_nil_r.
    do 3 f_equal; first [lia | set_solver].
  - unfold extracted_steps, read_errors. rewrite !bind_cons.
    fold (extracted_steps open_read files).
    fold (read_errors open_read files).
    cbn [fold_left]. unfold step_file_turn at 2, step_try.
    destruct (open_read f) as [content|e].
    + rewrite step_body_fold. cbv zeta. rewrite IH. cbv zeta.
      cbn [total_steps duplicate_steps files_affected step_duplication_percentage].
      rewrite fold_left_app, fmap_app, list_to_set_app_L, length_app.
      do 3 f_equal; first [lia | set_solver].
    + rewrite IH. cbv zeta. by rewrite <- app_assoc.
Qed.

Lemma page_body_fold (file_path : string) (ms : list (string * string))
    (report : PageReport) (d : dict (list LocatorOccurrence)) :
  let occs :=
    (λ '(name, value), mkLocatorOccurrence file_path name value) <$> ms in
  fold_left (page_body file_path) ms (report, d)
  = (mkPageReport (total_locators report + length occs)
       (duplicate_locators report)
       (list_to_set (locator_file <$> occs) ∪ pages_affected report)
       (page_duplication_percentage report),
     fold_left (λ d o, dict_append (locator_key o) o d) occs d).
Proof.
  revert report d. induction ms as [|[name value] ms IH]; intros report d.
  - destruct report. simpl. do 2 f_equal; first [lia | set_solver].
  - simpl. rewrite IH. simpl.
    do 2 f_equal; unfold fmap; first [lia | set_solver].
Qed.

Lemma page_loop (files : list string) (report : PageReport)
    (d : dict (list LocatorOccurrence)) (out : list string) :
  let ex := extracted_locators open_read files in
  fold_left (page_file_turn open_read) files (report, d, out)
  = (mkPageReport (total_locators report + length ex)
       (duplicate_locators report)
       (list_to_set (locator_file <$> ex) ∪ pages_affected report)
       (page_duplication_percentage report),
     fold_left (λ d o, dict_append (locator_key o) o d) ex d,
     out ++ read_errors open_read files).
Proof.
  revert report d out.
  induction files as [|f files IH]; intros report d out; cbv zeta.
  - destruct report. simpl. rewrite app_nil_r.
    do 3 f_equal; first [lia | set_solver].
  - unfold extracted_locators, read_errors. rewrite !bind_cons.
    fold (extracted_locators open_read files).
    fold (read_errors open_read files).
    cbn [fold_left]. unfold page_file_turn at 2, page_try.
    destruct (open_read f) as [content|e].
    + rewrite page_body_fold. cbv zeta. rewrite IH. cbv zeta.
      cbn [total_locators duplicate_locators pages_affected page_duplication_percentage].
      rewrite fold_left_app, fmap_app, list_to_set_app_L, length_app.
      do 3 f_equal; first [lia | set_solver].
    + rewrite IH. cbv zeta. by rewrite <- app_assoc.
Qed.

(** The step report in closed form. *)
Lemma check_step_duplication_eq (files : list string) :
  let ex := extracted_steps open_read files in
  let groups :=
    (λ k, step_group (k, occurrences_of step_key k ex))
      <$> duplicated_keys step_key ex in
  check_step_duplication open_read files
  = (mkStepReport (length ex) groups (list_to_set (step_file <$> ex))
       (if 0 <? length ex then percentage (length groups) (length ex)
        else 0),
     read_errors open_read files).
Proof.
  intros ex groups. unfold check_step_duplication.
  rewrite step_loop. fold ex. simpl.
  rewrite fold_dict_append, find_duplicate_steps_filter.
  rewrite duplicate_groups_of_group_by, <- list_fmap_compose.
  change (files_affected _) with (∅ : gset string).
  rewrite (right_id_L ∅ (∪)).
  fold groups. by destruct (0 <? length ex).
Qed.

(** The page-object report in closed form. *)
Lemma check_page_object_duplication_eq (files : list string) :
  let ex := extracted_locators open_read files in
  let groups :=
    (λ k, locator_group (k, occurrences_of locator_key k ex))
      <$> duplicated_keys locator_key ex in
  check_page_object_duplication open_read files
  = (mkPageReport (length ex) groups (list_to_set (locator_file <$> ex))
       (if 0 <? length ex then percentage (length groups) (length ex)
        else 0),
     read_errors open_read files).
Proof.
  intros ex groups. unfold check_page_object_duplication.
  rewrite page_loop. fold ex. simpl.
  rewrite fold_dict_append, find_duplicate_locators_filter.
  rewrite duplicate_groups_of_group_by, <- list_fmap_compose.
  change (pages_affected _) with (∅ : gset string).
  rewrite (right_id_L ∅ (∪)).
  fold groups. by destruct (0 <? length ex).
Qed.

End Scan.

(** ** Failure analysis: results *)

Lemma match_error_type_none (items : dict FailureDetails)
    (error_message : string) (analysis : Analysis) :
  List.filter (λ kd, Py.contains kd.1 error_message) items = [] →
  match_error_type items error_message analysis = analysis.
Proof.
  induction items as [|[k d] items IH]; simpl; [done|].
  destruct (Py.contains k error_message); [done|]. exact IH.
Qed.

Lemma match_error_type_first (items : dict FailureDetails)
    (error_message : string) (analysis : Analysis)
    (k : string) (d : FailureDetails) (rest : dict FailureDetails) :
  List.filter (λ kd, Py.contains kd.1 error_message) items = (k, d) :: rest →
  match_error_type items error_message analysis
  = mkAnalysis (Some k) (Some (details_cause d)) (details_fixes d)
      (severity analysis) (recommended_actions analysis).
Proof.
  induction items as [|[k' d'] items IH]; simpl; [done|].
  destruct (Py.contains k' error_message).
  - by intros [= -> -> _].
  - exact IH.
Qed.

Lemma recommend_fields (a : Analysis) :
  error_type (recommend a) = error_type a ∧ cause (recommend a) = cause a ∧
  fixes (recommend a) = fixes a ∧ severity (recommend a) = severity a.
Proof. unfold recommend. repeat case_decide; done. Qed.

Lemma analyze_failure_severity (self : TestFailureAnalyzer)
    (error_message : string) :
  severity (analyze_failure self error_message)
  = determine_severity error_message.
Proof.
  unfold analyze_failure.
  by destruct (recommend_fields
    (set_severity (determine_severity error_message)
       (match_error_type (failure_patterns self) error_message
          (mkAnalysis None None [] "LOW" [])))) as (_ & _ & _ & ->).
Qed.

(** C2: when the markers of several signatures occur in the message, the
    result comes from the first of them in table order. The signatures whose
    marker occurs, listed in table order, are [(k, d) :: rest]; the returned
    [error_type], [cause] and [fixes] are those of [(k, d)], whatever [rest]
    holds and wherever the markers stand in the text. *)
Theorem analyze_failure_first_match_wins (self : TestFailureAnalyzer)
    (error_message : string) (k : string) (d : FailureDetails)
    (rest : dict FailureDetails) :
  List.filter (λ kd, Py.contains kd.1 error_message) (failure_patterns self)
    = (k, d) :: rest →
  rest ≠ [] →
  let analysis := analyze_failure self error_message in
  error_type analysis = Some k ∧
  cause analysis = Some (details_cause d) ∧
  fixes analysis = details_fixes d.
Proof.
  intros Hpresent _ analysis. subst analysis. unfold analyze_failure.
  destruct (recommend_fields
    (set_severity (determine_severity error_message)
       (match_error_type (failure_patterns self) error_message
          (mkAnalysis None None [] "LOW" [])))) as (-> & -> & -> & _).
  by rewrite (match_error_type_first _ _ _ _ _ _ Hpresent).
Qed.

(** The timeout marker stands first in the text, the element-not-found
    marker second; the table lists them the other way round and decides. *)
Lemma analyze_failure_first_match_wins_witness :
  let log := "TimeoutException after NoSuchElementException" in
  let analysis := analyze_failure TestFailureAnalyzer_init log in
  error_type analysis = Some "NoSuchElementException" ∧
  cause analysis = Some "Locator not found on page" ∧
  fixes analysis =
    [ "Verify locator selector is correct";
      "Check if element exists in current page context";
      "Update locator in page object";
      "Add wait condition for element to appear";
      "Verify page has loaded completely" ].
Proof.
  exact (analyze_failure_first_match_wins TestFailureAnalyzer_init
           "TimeoutException after NoSuchElementException"
           "NoSuchElementException" _ _ eq_refl ltac:(discriminate)).
Defined.

(** C3: [severity] is the outcome of the ordered marker check on the raw
    message alone, for every analyzer table; and a message with the
    stale-element and the timeout markers is classified as the stale-element
    signature with severity HIGH. *)
Theorem severity_independent_of_error_type :
  (∀ (self : TestFailureAnalyzer) (error_message : string),
     severity (analyze_failure self error_message) =
       if Py.contains "NoSuchElementException" error_message then "CRITICAL"
       else if Py.contains "TimeoutException" error_message then "HIGH"
       else if Py.contains "AssertionError" error_message then "MEDIUM"
       else "LOW") ∧
  (∃ error_message : string,
     Py.contains "StaleElementReferenceException" error_message = true ∧
     Py.contains "TimeoutException" error_message = true ∧
     let analysis := analyze_failure TestFailureAnalyzer_init error_message in
     error_type analysis = Some "StaleElementReferenceException" ∧
     severity analysis = "HIGH").
Proof.
  split.
  - intros self error_message. apply analyze_failure_severity.
  - exists "StaleElementReferenceException, then TimeoutException".
    by vm_compute.
Qed.

(** C6: a message in which no marker of the table occurs is analysed
    without failure, as unclassified: no [error_type], no [cause], no
    [fixes], severity LOW, no recommended actions. *)
Theorem analyze_failure_no_match (error_message : string) :
  (∀ k d, (k, d) ∈ failure_patterns TestFailureAnalyzer_init →
          Py.contains k error_message = false) →
  analyze_failure TestFailureAnalyzer_init error_message
  = mkAnalysis None None [] "LOW" [].
Proof.
  intros Hnone.
  assert (∀ k, k ∈ (failure_patterns TestFailureAnalyzer_init).*1 →
               Py.contains k error_message = false) as Hk.
  { intros k (kd & -> & Hin)%list_elem_of_fmap. destruct kd. eauto. }
  unfold analyze_failure, determine_severity.
  rewrite match_error_type_none.
  - rewrite !Hk by (simpl; set_solver). reflexivity.
  - simpl. rewrite !Hk by (simpl; set_solver). reflexivity.
Qed.

Lemma analyze_failure_no_match_witness :
  analyze_failure TestFailureAnalyzer_init "some random unrelated text"
  = mkAnalysis None None [] "LOW" [].
Proof.
  apply (analyze_failure_no_match "some random unrelated text").
  intros k d Hin. simpl in Hin.
  repeat (apply elem_of_cons in Hin as [[= -> _]|Hin]; [reflexivity|]).
  by apply elem_of_nil in Hin.
Defined.




(** ** Duplication reports: results *)

Lemma percentage_formula (dups total : nat) :
  total ≠ 0 →
  (percentage dups total
   == 100 * inject_Z (Z.of_nat dups) / inject_Z (Z.of_nat total))%Q.
Proof.
  intros Htotal. unfold percentage. field.
  intros Hz. apply Htotal.
  unfold Qeq in Hz. simpl in Hz. lia.
Qed.

Lemma percentage_at_most_50 (dups total : nat) :
  0 < total → 2 * dups ≤ total → (percentage dups total <= 50)%Q.
Proof.
  intros Hpos Hhalf. unfold percentage.
  apply Qle_trans with ((1 # 2) * 100)%Q; [|unfold Qle; simpl; lia].
  apply Qmult_le_compat_r; [|unfold Qle; simpl; lia].
  apply Qle_shift_div_r.
  - unfold Qlt. simpl. lia.
  - unfold Qle. simpl. lia.
Qed.


Lemma filter_iff_in {A : Type} (P Q : A → Prop)
    `{!∀ a, Decision (P a), !∀ a, Decision (Q a)} (l : list A) :
  (∀ a, a ∈ l → P a ↔ Q a) → filter P l = filter Q l.
Proof.
  induction l as [|a l IH]; intros Hl; [done|].
  rewrite !filter_cons, IH by (intros; apply Hl; by right).
  pose proof (Hl a ltac:(left)).
  destruct (decide (P a)), (decide (Q a)); try done; tauto.
Qed.

Section Counting.
Context {O : Type} (key : O → string).

Lemma occurrences_of_remove (k k' : string) (l : list O) :
  k' ≠ k →
  occurrences_of key k' (filter (λ o, key o ≠ k) l)
  = occurrences_of key k' l.
Proof.
  intros Hne. unfold occurrences_of. rewrite list_filter_filter.
  apply list_filter_iff. intros o. split; [tauto|]. intros <-. done.
Qed.

Lemma length_split_key (k : string) (l : list O) :
  length l
  = length (occurrences_of key k l) + length (filter (λ o, key o ≠ k) l).
Proof.
  unfold occurrences_of. induction l as [|o l IH]; [done|].
  rewrite !filter_cons. destruct (decide (key o = k)).
  - rewrite decide_False by tauto. simpl. lia.
  - rewrite decide_True by done. simpl. lia.
Qed.

(** Groups with two members or more are at most half as many as the
    members. *)
Lemma duplicated_at_most_half (ks : list string) (l : list O) :
  NoDup ks →
  2 * length (filter (λ k, 1 < length (occurrences_of key k l)) ks)
  ≤ length l.
Proof.
  intros Hnd. revert l. induction Hnd as [|k ks Hk Hnd IH]; intros l.
  - simpl. lia.
  - rewrite filter_cons.
    set (l' := filter (λ o, key o ≠ k) l).
    assert (filter (λ k0, 1 < length (occurrences_of key k0 l)) ks
            = filter (λ k0, 1 < length (occurrences_of key k0 l')) ks)
      as ->.
    { apply filter_iff_in. intros k0 Hk0. unfold l'.
      rewrite occurrences_of_remove; [done|]. by intros ->. }
    specialize (IH l'). pose proof (length_split_key k l) as Hlen.
    fold l' in Hlen. case_decide; simpl; lia.
Qed.

Lemma duplicated_keys_at_most_half (l : list O) :
  2 * length (duplicated_keys key l) ≤ length l.
Proof. apply duplicated_at_most_half, NoDup_distinct. Qed.

Lemma NoDup_duplicated_keys (l : list O) : NoDup (duplicated_keys key l).
Proof. apply NoDup_filter, NoDup_distinct. Qed.


End Counting.

Lemma step_group_keys (l : list StepOccurrence) (ks : list string) :
  dup_step_pattern
    <$> ((λ k, step_group (k, occurrences_of step_key k l)) <$> ks) = ks.
Proof. induction ks as [|k ks IH]; [done|]. rewrite !fmap_cons, IH. done. Qed.

Lemma locator_group_keys (l : list LocatorOccurrence) (ks : list string) :
  dup_locator_value
    <$> ((λ k, locator_group (k, occurrences_of locator_key k l)) <$> ks)
  = ks.
Proof. induction ks as [|k ks IH]; [done|]. rewrite !fmap_cons, IH. done. Qed.


Lemma step_groups_counts (l : list StepOccurrence) (ks : list string) :
  Forall (λ k, 1 < length (occurrences_of step_key k l)) ks →
  Forall (λ g, 2 ≤ dup_step_count g)
    ((λ k, step_group (k, occurrences_of step_key k l)) <$> ks).
Proof.
  intros Hks. apply Forall_fmap. eapply Forall_impl; [exact Hks|].
  intros k Hk. simpl in *. lia.
Qed.

Lemma locator_groups_counts (l : list LocatorOccurrence) (ks : list string) :
  Forall (λ k, 1 < length (occurrences_of locator_key k l)) ks →
  Forall (λ g, 2 ≤ dup_locator_count g)
    ((λ k, locator_group (k, occurrences_of locator_key k l)) <$> ks).
Proof.
  intros Hks. apply Forall_fmap. eapply Forall_impl; [exact Hks|].
  intros k Hk. simpl in *. lia.
Qed.

Lemma duplicated_keys_counts {O : Type} (key : O → string) (l : list O) :
  Forall (λ k, 1 < length (occurrences_of key k l)) (duplicated_keys key l).
Proof. apply Forall_forall. by intros k [Hk _]%list_elem_of_filter. Qed.

(** C9: in a report over at least one declaration, every reported group
    counts two occurrences or more, the groups have distinct keys, the groups
    are at most half as many as the declarations, and
    [duplication_percentage] is at most 50. *)
Theorem duplicate_groups_at_most_half
    (open_read : string → outcome string) (page_files step_files : list string) :
  let p := (check_page_object_duplication open_read page_files).1 in
  let s := (check_step_duplication open_read step_files).1 in
  (0 < total_locators p →
     Forall (λ g, 2 ≤ dup_locator_count g) (duplicate_locators p) ∧
     NoDup (dup_locator_value <$> duplicate_locators p) ∧
     2 * length (duplicate_locators p) ≤ total_locators p ∧
     (page_duplication_percentage p <= 50)%Q) ∧
  (0 < total_steps s →
     Forall (λ g, 2 ≤ dup_step_count g) (duplicate_steps s) ∧
     NoDup (dup_step_pattern <$> duplicate_steps s) ∧
     2 * length (duplicate_steps s) ≤ total_steps s ∧
     (step_duplication_percentage s <= 50)%Q).
Proof.
  intros p s. subst p s.
  rewrite check_page_object_duplication_eq, check_step_duplication_eq.
  cbn [fst total_locators duplicate_locators page_duplication_percentage
       total_steps duplicate_steps step_duplication_percentage].
  split; intros Hpos.
  - pose proof (duplicated_keys_at_most_half locator_key
                  (extracted_locators open_read page_files)) as Hhalf.
    split_and!.
    + apply locator_groups_counts, duplicated_keys_counts.
    + rewrite locator_group_keys. apply NoDup_duplicated_keys.
    + by rewrite length_fmap.
    + destruct (Nat.ltb_spec 0 (length (extracted_locators open_read page_files)));
        [|lia].
      apply percentage_at_most_50; [done|]. by rewrite length_fmap.
  - pose proof (duplicated_keys_at_most_half step_key
                  (extracted_steps open_read step_files)) as Hhalf.
    split_and!.
    + apply step_groups_counts, duplicated_keys_counts.
    + rewrite step_group_keys. apply NoDup_duplicated_keys.
    + by rewrite length_fmap.
    + destruct (Nat.ltb_spec 0 (length (extracted_steps open_read step_files)));
        [|lia].
      apply percentage_at_most_50; [done|]. by rewrite length_fmap.
Qed.

(** Two page objects with one locator each and the same selector: one
    group over two declarations, the largest share possible. *)
Lemma duplicate_groups_at_most_half_witness :
  let p := (check_page_object_duplication Sample.open_read
              ["LoginPage.java"; "SubmitPage.java"]).1 in
  Forall (λ g, 2 ≤ dup_locator_count g) (duplicate_locators p) ∧
  NoDup (dup_locator_value <$> duplicate_locators p) ∧
  2 * length (duplicate_locators p) ≤ total_locators p ∧
  (page_duplication_percentage p <= 50)%Q.
Proof.
  apply (proj1 (duplicate_groups_at_most_half Sample.open_read
                  ["LoginPage.java"; "SubmitPage.java"] [])).
  vm_compute. lia.
Defined.

Section Affected.
Variable open_read : string → outcome string.

Lemma elem_of_extracted_locators (o : LocatorOccurrence)
    (files : list string) :
  o ∈ extracted_locators open_read files ↔
  ∃ content name value,
    locator_file o ∈ files ∧ open_read (locator_file o) = Returned content ∧
    (name, value) ∈ Re.findall Re.locator_declaration content ∧
    o = mkLocatorOccurrence (locator_file o) name value.
Proof.
  unfold extracted_locators. rewrite list_elem_of_bind. split.
  - intros (f & Ho & Hf). destruct (open_read f) as [content|e] eqn:Hr.
    + apply list_elem_of_fmap in Ho as ([name value] & -> & Hm).
      exists content, name, value. simpl. by rewrite Hr.
    + by apply elem_of_nil in Ho.
  - intros (content & name & value & Hf & Hr & Hm & Ho).
    exists (locator_file o). split; [|done]. rewrite Hr.
    apply list_elem_of_fmap. exists (name, value). done.
Qed.

Lemma elem_of_extracted_steps (o : StepOccurrence) (files : list string) :
  o ∈ extracted_steps open_read files ↔
  ∃ content ty text,
    step_file o ∈ files ∧ open_read (step_file o) = Returned content ∧
    (ty, text) ∈ Re.findall Re.step_annotation content ∧
    o = mkStepOccurrence (step_file o) text ty.
Proof.
  unfold extracted_steps. rewrite list_elem_of_bind. split.
  - intros (f & Ho & Hf). destruct (open_read f) as [content|e] eqn:Hr.
    + apply list_elem_of_fmap in Ho as ([ty text] & -> & Hm).
      exists content, ty, text. simpl. by rewrite Hr.
    + by apply elem_of_nil in Ho.
  - intros (content & ty & text & Hf & Hr & Hm & Ho).
    exists (step_file o). split; [|done]. rewrite Hr.
    apply list_elem_of_fmap. exists (ty, text). done.
Qed.

Lemma pages_affected_iff (files : list string) (f : string) :
  f ∈ pages_affected (check_page_object_duplication open_read files).1 ↔
  f ∈ files ∧
  ∃ content, open_read f = Returned content ∧
             Re.findall Re.locator_declaration content ≠ [].
Proof.
  rewrite check_page_object_duplication_eq. cbn [fst pages_affected].
  rewrite elem_of_list_to_set, list_elem_of_fmap. split.
  - intros (o & -> & Ho). apply elem_of_extracted_locators in Ho
      as (content & name & value & Hf & Hr & Hm & _).
    split; [done|]. exists content. split; [done|].
    intros Hnil. rewrite Hnil in Hm. by apply elem_of_nil in Hm.
  - intros (Hf & content & Hr & Hne).
    destruct (Re.findall Re.locator_declaration content)
      as [|[name value] ms] eqn:Hms; [done|].
    exists (mkLocatorOccurrence f name value). split; [done|].
    apply elem_of_extracted_locators. exists content, name, value.
    simpl. rewrite Hms. split_and!; try done. left.
Qed.

Lemma files_affected_iff (files : list string) (f : string) :
  f ∈ files_affected (check_step_duplication open_read files).1 ↔
  f ∈ files ∧
  ∃ content, open_read f = Returned content ∧
             Re.findall Re.step_annotation content ≠ [].
Proof.
  rewrite check_step_duplication_eq. cbn [fst files_affected].
  rewrite elem_of_list_to_set, list_elem_of_fmap. split.
  - intros (o & -> & Ho). apply elem_of_extracted_steps in Ho
      as (content & ty & text & Hf & Hr & Hm & _).
    split; [done|]. exists content. split; [done|].
    intros Hnil. rewrite Hnil in Hm. by apply elem_of_nil in Hm.
  - intros (Hf & content & Hr & Hne).
    destruct (Re.findall Re.step_annotation content)
      as [|[ty text] ms] eqn:Hms; [done|].
    exists (mkStepOccurrence f text ty). split; [done|].
    apply elem_of_extracted_steps. exists content, ty, text.
    simpl. rewrite Hms. split_and!; try done. left.
Qed.

End Affected.

(** C10: the affected-files set of a report holds exactly the files that
    were read and in which at least one declaration was found; a file whose
    declarations enter no duplicate group is in it all the same. *)
Theorem affected_files_are_files_with_declarations :
  (∀ open_read files f,
     f ∈ pages_affected (check_page_object_duplication open_read files).1 ↔
     f ∈ files ∧
     ∃ content, open_read f = Returned content ∧
                Re.findall Re.locator_declaration content ≠ []) ∧
  (∀ open_read files f,
     f ∈ files_affected (check_step_duplication open_read files).1 ↔
     f ∈ files ∧
     ∃ content, open_read f = Returned content ∧
                Re.findall Re.step_annotation content ≠ []) ∧
  (let p := (check_page_object_duplication Sample.open_read
               ["HomePage.java"]).1 in
   duplicate_locators p = [] ∧ "HomePage.java" ∈ pages_affected p) ∧
  (let s := (check_step_duplication Sample.open_read
               ["ClickSteps.java"]).1 in
   duplicate_steps s = [] ∧ "ClickSteps.java" ∈ files_affected s).
Proof.
  split_and!.
  - apply pages_affected_iff.
  - apply files_affected_iff.
  - split; [by vm_compute|]. apply pages_affected_iff.
    split; [set_solver|]. exists Sample.home_page. split; [done|].
    by vm_compute.
  - split; [by vm_compute|]. apply files_affected_iff.
    split; [set_solver|]. exists Sample.click_steps. split; [done|].
    by vm_compute.
Qed.

Section ReadFailure.
Variable open_read : string → outcome string.




End ReadFailure.



(** ** Pre-execution check: results *)

Section PreCheck.
Variable open_read : string → outcome string.

Lemma check_pages_fields (page_files : list string)
    (r : PreCheckReport) (out : list string) :
  let p := (check_page_object_duplication open_read page_files).1 in
  let r' := (check_pages open_read page_files (r, out)).1 in
  ready_to_execute r' =
    match duplicate_locators p with
    | [] => ready_to_execute r
    | _ :: _ => false
    end ∧
  issues r' = issues r ++ locator_issue p.
Proof.
  unfold check_pages, locator_issue. destruct page_files as [|f fs].
  - simpl. by rewrite app_nil_r.
  - destruct (check_page_object_duplication open_read (f :: fs))
      as [p printed].
    cbn [fst]. destruct (duplicate_locators p) eqn:Hd; cbn.
    + by rewrite app_nil_r.
    + done.
Qed.

Lemma check_steps_fields (step_files : list string)
    (r : PreCheckReport) (out : list string) :
  let s := (check_step_duplication open_read step_files).1 in
  let r' := (check_steps open_read step_files (r, out)).1 in
  ready_to_execute r' = ready_to_execute r ∧
  issues r' = issues r ++ step_issue s.
Proof.
  unfold check_steps, step_issue. destruct step_files as [|f fs].
  - simpl. by rewrite app_nil_r.
  - destruct (check_step_duplication open_read (f :: fs)) as [s printed].
    cbn [fst]. destruct (duplicate_steps s) eqn:Hd; cbn.
    + by rewrite app_nil_r.
    + done.
Qed.

End PreCheck.

(** C5: [ready_to_execute] is false exactly when the locator check reports
    a duplicate group, and true otherwise; the step files have no influence
    on it. Duplicate steps add one entry to [issues], after the entry for
    duplicate locators if there is one. *)
Theorem readiness_depends_on_locators_only
    (open_read : string → outcome string)
    (page_files step_files : list string) (now : string) :
  let r := (check_before_execution open_read page_files step_files now).1 in
  let p := (check_page_object_duplication open_read page_files).1 in
  let s := (check_step_duplication open_read step_files).1 in
  (duplicate_locators p ≠ [] → ready_to_execute r = false) ∧
  (duplicate_locators p = [] → ready_to_execute r = true) ∧
  (∀ step_files',
     ready_to_execute
       (check_before_execution open_read page_files step_files' now).1
     = ready_to_execute r) ∧
  issues r = locator_issue p ++ step_issue s ∧
  (duplicate_steps s ≠ [] →
     issues r = locator_issue p
                ++ ["Duplicate steps found: "
                    +:+ Py.str_of_nat (length (duplicate_steps s))]).
Proof.
  intros r p s.
  assert (∀ sf,
    let r := (check_before_execution open_read page_files sf now).1 in
    let s := (check_step_duplication open_read sf).1 in
    ready_to_execute r
      = match duplicate_locators p with [] => true | _ :: _ => false end ∧
    issues r = locator_issue p ++ step_issue s) as Hall.
  { intros sf. cbv zeta. unfold check_before_execution.
    destruct (check_pages open_read page_files
                (mkPreCheckReport now None None None true [],
                 [newline +:+ "[*] Checking for code duplication..."]))
      as [r1 out1] eqn:Hpages.
    destruct (check_steps_fields open_read sf r1 out1) as [-> ->].
    pose proof (check_pages_fields open_read page_files
      (mkPreCheckReport now None None None true [])
      [newline +:+ "[*] Checking for code duplication..."]) as Hp.
    cbv zeta in Hp. rewrite Hpages in Hp. cbn [fst] in Hp.
    destruct Hp as [-> ->]. done. }
  destruct (Hall step_files) as [Hready Hissues]. fold r s in Hready, Hissues.
  split_and!.
  - intros Hd. rewrite Hready. by destruct (duplicate_locators p).
  - intros Hd. by rewrite Hready, Hd.
  - intros sf. destruct (Hall sf) as [-> _]. by rewrite Hready.
  - done.
  - intros Hd. rewrite Hissues. unfold step_issue.
    by destruct (duplicate_steps s).
Qed.

(** Page objects with a duplicate selector block readiness; step files with
    duplicate patterns alone do not. *)
Lemma readiness_depends_on_locators_only_witness :
  ready_to_execute
    (check_before_execution Sample.open_read
       ["LoginPage.java"; "SubmitPage.java"] [] "2024-01-01 00:00:00").1
    = false ∧
  ready_to_execute
    (check_before_execution Sample.open_read
       ["HomePage.java"] ["LoginSteps.java"] "2024-01-01 00:00:00").1
    = true ∧
  issues
    (check_before_execution Sample.open_read
       ["HomePage.java"] ["LoginSteps.java"] "2024-01-01 00:00:00").1
    = ["Duplicate steps found: 1"].
Proof.
  split_and!.
  - apply (proj1 (readiness_depends_on_locators_only Sample.open_read
      ["LoginPage.java"; "SubmitPage.java"] [] "2024-01-01 00:00:00")).
    by vm_compute.
  - apply (proj1 (proj2 (readiness_depends_on_locators_only Sample.open_read
      ["HomePage.java"] ["LoginSteps.java"] "2024-01-01 00:00:00"))).
    by vm_compute.
  - apply (proj2 (proj2 (proj2 (proj2
      (readiness_depends_on_locators_only Sample.open_read
         ["HomePage.java"] ["LoginSteps.java"] "2024-01-01 00:00:00"))))).
    by vm_compute.
Defined.

(** ** Normalization of the grouping keys *)

Lemma isspace_lower_char (c : ascii) :
  Py.isspace (Py.lower_char c) = Py.isspace c.
Proof. by destruct c as [[] [] [] [] [] [] [] []]. Qed.

Lemma lower_lstrip (s : string) : Py.lstrip (Py.lower s) = Py.lower (Py.lstrip s).
Proof.
  induction s as [|c s IH]; [done|].
  simpl. rewrite isspace_lower_char. by destruct (Py.isspace c).
Qed.

Lemma lower_rstrip (s : string) : Py.rstrip (Py.lower s) = Py.lower (Py.rstrip s).
Proof.
  induction s as [|c s IH]; [done|].
  simpl. rewrite IH, isspace_lower_char.
  destruct (Py.rstrip s); simpl; [by destruct (Py.isspace c)|done].
Qed.

Lemma lower_strip (s : string) : Py.strip (Py.lower s) = Py.lower (Py.strip s).
Proof. unfold Py.strip. by rewrite lower_lstrip, lower_rstrip. Qed.












(** ** Scenarios *)

(** Two page objects that assign the same normalized selector to
    [LOGIN_BUTTON] and to [SUBMIT_BTN]: one group of two, 50 percent. *)
Example scenario_two_pages :
  let p := (check_page_object_duplication Sample.open_read
              ["LoginPage.java"; "SubmitPage.java"]).1 in
  total_locators p = 2 ∧
  dup_locator_locations <$> duplicate_locators p
    = [["LoginPage.java::LOGIN_BUTTON"; "SubmitPage.java::SUBMIT_BTN"]] ∧
  (page_duplication_percentage p == 50)%Q.
Proof. by vm_compute. Qed.

(** An empty file collection: an empty report, nothing printed. *)
Example scenario_no_files (open_read : string → outcome string) :
  check_page_object_duplication open_read [] = (mkPageReport 0 [] ∅ 0, []) ∧
  check_step_duplication open_read [] = (mkStepReport 0 [] ∅ 0, []).
Proof. done. Qed.

(** Step patterns that differ in letter case are one group. *)
Example scenario_login_steps :
  let s := (check_step_duplication Sample.open_read ["LoginSteps.java"]).1 in
  total_steps s = 2 ∧
  duplicate_steps s
    = [mkDuplicateStep "i am logged in" 2 ["LoginSteps.java"; "LoginSteps.java"]].
Proof. by vm_compute. Qed.

Example scenario_no_such_element :
  let a := analyze_failure TestFailureAnalyzer_init
             "org.openqa.selenium.NoSuchElementException: no such element" in
  error_type a = Some "NoSuchElementException" ∧ severity a = "CRITICAL" ∧
  length (fixes a) = 5 ∧ length (recommended_actions a) = 4.
Proof. by vm_compute. Qed.

(** ** Failure analysis: classification, actions and snippets *)

Lemma filter_present_nil (items : dict FailureDetails) (msg : string) :
  List.filter (λ kd, Py.contains kd.1 msg) items = [] ↔
  ∀ k d, (k, d) ∈ items → Py.contains k msg = false.
Proof.
  induction items as [|[k d] items IH]; simpl.
  - split; [|done]. intros _ k d Hin. by apply elem_of_nil in Hin.
  - destruct (Py.contains k msg) eqn:Hk.
    + split; [done|]. intros H. rewrite (H k d) in Hk; [done|left].
    + rewrite IH. split.
      * intros H k' d' [[= -> ->]|Hin]%elem_of_cons; eauto.
      * intros H k' d' Hin. apply (H k' d'). by right.
Qed.

Lemma filter_present_head (items : dict FailureDetails) (msg : string)
    (k : string) (d : FailureDetails) (rest : dict FailureDetails) :
  List.filter (λ kd, Py.contains kd.1 msg) items = (k, d) :: rest →
  (k, d) ∈ items ∧ Py.contains k msg = true.
Proof.
  intros Hf.
  assert (In (k, d) (List.filter (λ kd, Py.contains kd.1 msg) items)) as Hin
    by (rewrite Hf; by left).
  apply filter_In in Hin as [Hin Hk]. split; [by apply list_elem_of_In|done].
Qed.

Lemma analyze_failure_fields (self : TestFailureAnalyzer) (msg : string) :
  let a := analyze_failure self msg in
  let m := match_error_type (failure_patterns self) msg
             (mkAnalysis None None [] "LOW" []) in
  error_type a = error_type m ∧ cause a = cause m ∧ fixes a = fixes m.
Proof.
  unfold analyze_failure.
  destruct (recommend_fields
    (set_severity (determine_severity msg)
       (match_error_type (failure_patterns self) msg
          (mkAnalysis None None [] "LOW" [])))) as (-> & -> & -> & _).
  done.
Qed.

(** X1: the classification is sound and complete for any signature table.
    [error_type] is unset exactly when no marker of the table occurs in the
    message, and then [cause] is unset and [fixes] is empty; a set
    [error_type] is a marker of the table that occurs in the message, and
    [cause] and [fixes] are those of one of its entries. *)
Theorem classification_sound_and_complete (self : TestFailureAnalyzer)
    (msg : string) :
  let a := analyze_failure self msg in
  (error_type a = None ↔
     ∀ k d, (k, d) ∈ failure_patterns self → Py.contains k msg = false) ∧
  (error_type a = None → cause a = None ∧ fixes a = []) ∧
  (∀ k, error_type a = Some k →
     Py.contains k msg = true ∧
     ∃ d, (k, d) ∈ failure_patterns self ∧
          cause a = Some (details_cause d) ∧ fixes a = details_fixes d).
Proof.
  intros a. subst a.
  destruct (analyze_failure_fields self msg) as (-> & -> & ->).
  rewrite <- filter_present_nil.
  destruct (List.filter (λ kd, Py.contains kd.1 msg) (failure_patterns self))
    as [|[k d] rest] eqn:Hf.
  - rewrite match_error_type_none by done. simpl. split_and!; done.
  - rewrite (match_error_type_first _ _ _ _ _ _ Hf). simpl.
    apply filter_present_head in Hf as [Hin Hk].
    split_and!; [done|done|]. intros k' [= <-]. eauto.
Qed.

Lemma match_error_type_keeps (items : dict FailureDetails) (msg : string)
    (a0 : Analysis) :
  severity (match_error_type items msg a0) = severity a0 ∧
  recommended_actions (match_error_type items msg a0)
  = recommended_actions a0.
Proof.
  induction items as [|[k d] items IH]; simpl; [done|].
  by destruct (Py.contains k msg).
Qed.

(** X2: [recommended_actions] is keyed by the severity markers alone, for
    any signature table: the four CRITICAL steps when the element-not-found
    marker occurs, the four HIGH steps when it does not and the timeout
    marker occurs, nothing otherwise; it is empty exactly for MEDIUM and
    LOW. *)
Theorem recommended_actions_follow_severity (self : TestFailureAnalyzer)
    (msg : string) :
  let a := analyze_failure self msg in
  recommended_actions a =
    (if Py.contains "NoSuchElementException" msg then critical_actions
     else if Py.contains "TimeoutException" msg then high_actions
     else []) ∧
  (recommended_actions a = [] ↔ severity a = "MEDIUM" ∨ severity a = "LOW").
Proof.
  intros a. subst a. rewrite analyze_failure_severity.
  unfold analyze_failure, determine_severity, recommend.
  pose proof (match_error_type_keeps (failure_patterns self) msg
                (mkAnalysis None None [] "LOW" [])) as [_ Hkeep].
  revert Hkeep.
  generalize (match_error_type (failure_patterns self) msg
                (mkAnalysis None None [] "LOW" [])) as m.
  intros m Hm. simpl in Hm.
  destruct (Py.contains "NoSuchElementException" msg),
    (Py.contains "TimeoutException" msg),
    (Py.contains "AssertionError" msg);
    cbn; repeat case_decide; try done; cbn; rewrite ?Hm;
    (split; [reflexivity|]); split; intros Hx; try done; auto;
    destruct Hx; done.
Qed.

(** X3: with the built-in table, severity and classification agree as far
    as the table order lets them. CRITICAL goes with the element-not-found
    signature and with no other; HIGH goes with the stale-element or the
    timeout signature; MEDIUM with the stale-element or the assertion
    signature; an unclassified message is LOW; and [fixes] is empty exactly
    when the message is unclassified. *)
Theorem builtin_severity_and_error_type (msg : string) :
  let a := analyze_failure TestFailureAnalyzer_init msg in
  (severity a = "CRITICAL" ↔ error_type a = Some "NoSuchElementException") ∧
  (severity a = "HIGH" →
     error_type a = Some "StaleElementReferenceException" ∨
     error_type a = Some "TimeoutException") ∧
  (severity a = "MEDIUM" →
     error_type a = Some "StaleElementReferenceException" ∨
     error_type a = Some "AssertionError") ∧
  (error_type a = None → severity a = "LOW") ∧
  (fixes a = [] ↔ error_type a = None).
Proof.
  intros a. subst a.
  destruct (analyze_failure_fields TestFailureAnalyzer_init msg)
    as (-> & _ & ->).
  rewrite analyze_failure_severity. unfold determine_severity. simpl.
  destruct (Py.contains "NoSuchElementException" msg),
    (Py.contains "StaleElementReferenceException" msg),
    (Py.contains "TimeoutException" msg),
    (Py.contains "AssertionError" msg),
    (Py.contains "ElementNotInteractableException" msg),
    (Py.contains "InvalidElementStateException" msg);
    simpl; repeat split; intros; try done; auto.
Qed.

Lemma template_not_fallback (lines : list string) :
  template lines ≠ fix_fallback.
Proof. unfold template, newline, fix_fallback. simpl. discriminate. Qed.

Lemma suggest_fix_code_known (t name : string) :
  t ∈ snippet_types → ∃ lines, suggest_fix_code t name = template lines.
Proof.
  unfold snippet_types. intros Hin.
  repeat (apply elem_of_cons in Hin as [->|Hin]);
    [| | | |by apply elem_of_nil in Hin];
    unfold suggest_fix_code, fix_snippets; cbn [dict_get];
    repeat (rewrite decide_False by done); rewrite decide_True by done;
    eexists; reflexivity.
Qed.

Lemma suggest_fix_code_unknown (t name : string) :
  t ∉ snippet_types → suggest_fix_code t name = fix_fallback.
Proof.
  unfold snippet_types. rewrite !not_elem_of_cons. intros (?&?&?&?&_).
  unfold suggest_fix_code, fix_snippets. cbn [dict_get].
  by repeat (rewrite decide_False by done).
Qed.

(** X4: [suggest_fix_code] returns the generic fallback text exactly for the
    error types outside its four keys, whatever the element name: no snippet
    is equal to the fallback. *)
Theorem suggest_fix_code_fallback (t name : string) :
  suggest_fix_code t name = fix_fallback ↔ t ∉ snippet_types.
Proof.
  split.
  - intros Hfb Hin. destruct (suggest_fix_code_known t name Hin) as [l Hl].
    rewrite Hl in Hfb. by apply template_not_fallback in Hfb.
  - apply suggest_fix_code_unknown.
Qed.

Lemma contains_prefix (sub s : string) :
  String.prefix sub s = true → Py.contains sub s = true.
Proof. intros H. destruct s; cbn [Py.contains]; by rewrite H. Qed.

Lemma prefix_append (sub tail : string) :
  String.prefix sub (sub +:+ tail) = true.
Proof.
  induction sub as [|c sub IH]; simpl; [by destruct tail|].
  by destruct (ascii_dec c c).
Qed.

Lemma contains_here (sub tail : string) :
  Py.contains sub (sub +:+ tail) = true.
Proof. apply contains_prefix, prefix_append. Qed.

Lemma string_app_assoc (a b c : string) :
  (a +:+ b) +:+ c = a +:+ (b +:+ c).
Proof.
  induction a as [|x a IH]; [done|].
  change (String x ((a +:+ b) +:+ c) = String x (a +:+ (b +:+ c))).
  by f_equal.
Qed.

Lemma contains_cons (sub s : string) (c : ascii) :
  Py.contains sub s = true → Py.contains sub (String c s) = true.
Proof. intros H. simpl. rewrite H. apply orb_true_r. Qed.

(** X5: every snippet names the element it is asked about: for each of the
    four error types with a snippet, the text returned contains
    [(By.ID, Q<element_name>Q)] with the name inserted as given. *)
Theorem snippet_names_the_element (t name : string) :
  t ∈ snippet_types →
  Py.contains (by_id name) (suggest_fix_code t name) = true.
Proof.
  unfold snippet_types. intros Hin.
  repeat (apply elem_of_cons in Hin as [->|Hin]);
    [| | | |by apply elem_of_nil in Hin];
    unfold suggest_fix_code, fix_snippets; cbn [dict_get];
    repeat (rewrite decide_False by done); rewrite decide_True by done;
    cbn [default]; generalize (by_id name) as b; intros b;
    unfold template, newline; cbn [PyStr.join String.append];
    repeat apply contains_cons; rewrite ?string_app_assoc;
    apply contains_here.
Qed.

Lemma snippet_names_the_element_witness :
  Py.contains (by_id "login") (suggest_fix_code "TimeoutException" "login")
  = true.
Proof.
  apply (snippet_names_the_element "TimeoutException" "login").
  unfold snippet_types. set_solver.
Defined.

Lemma error_type_in_table (items : dict FailureDetails) (msg : string)
    (a0 : Analysis) (t : string) :
  error_type a0 = None →
  error_type (match_error_type items msg a0) = Some t → t ∈ items.*1.
Proof.
  intros H0. induction items as [|[k d] items IH]; simpl.
  - by rewrite H0.
  - destruct (Py.contains k msg); simpl.
    + intros [= ->]. left.
    + intros H. right. by apply IH.
Qed.

(** X6: fed with the [error_type] of an analysis by the built-in table,
    [suggest_fix_code] falls back to the generic text exactly for the
    assertion and the invalid-state signatures: these two of the six
    signatures have no snippet. *)
Theorem snippet_for_classified_failure (msg name t : string) :
  error_type (analyze_failure TestFailureAnalyzer_init msg) = Some t →
  (suggest_fix_code t name = fix_fallback ↔
   t = "AssertionError" ∨ t = "InvalidElementStateException").
Proof.
  destruct (analyze_failure_fields TestFailureAnalyzer_init msg)
    as (-> & _ & _).
  intros Ht%error_type_in_table; [|done]. simpl in Ht.
  repeat (apply elem_of_cons in Ht as [->|Ht]);
    [| | | | | |by apply elem_of_nil in Ht].
  all: split;
    [ intros Hfb;
      first [ by (left + right)
            | exfalso;
              destruct (suggest_fix_code_known _ name
                          ltac:(unfold snippet_types; set_solver)) as [l Hl];
              rewrite Hl in Hfb; by apply template_not_fallback in Hfb ]
    | intros [?|?]; try done; apply suggest_fix_code_unknown;
      unfold snippet_types; set_solver ].
Qed.

Lemma snippet_for_classified_failure_witness :
  suggest_fix_code "AssertionError" "total" = fix_fallback ↔
  "AssertionError" = "AssertionError" ∨
  "AssertionError" = "InvalidElementStateException".
Proof.
  apply (snippet_for_classified_failure
           "java.lang.AssertionError: expected [3] but found [4]" "total").
  reflexivity.
Defined.

(** ** Deduplication suggestions *)

Lemma percentage_above_20 (dups total : nat) :
  0 < total → (20 < percentage dups total)%Q ↔ total < 5 * dups.
Proof.
  intros Hpos.
  assert (0 < inject_Z (Z.of_nat total))%Q as Hq
    by (unfold Qlt; simpl; lia).
  split.
  - intros Hlt. destruct (decide (total < 5 * dups)) as [|Hge]; [done|].
    exfalso. apply (Qlt_not_le _ _ Hlt).
    rewrite percentage_formula by lia.
    apply Qle_shift_div_r; [done|]. unfold Qle. simpl. lia.
  - intros Hlt. rewrite percentage_formula by lia.
    apply Qlt_shift_div_l; [done|]. unfold Qlt. simpl. lia.
Qed.

Lemma high_duplication_test {A : Type} (dups total : nat) (x y : A) :
  2 * dups ≤ total →
  (if Qlt_le_dec 20 (if 0 <? total then percentage dups total else 0)
   then x else y)
  = if decide (total < 5 * dups) then x else y.
Proof.
  intros Hhalf. destruct (Nat.ltb_spec 0 total) as [Hpos|Hzero].
  - destruct (Qlt_le_dec 20 (percentage dups total)) as [Hlt|Hle].
    + apply percentage_above_20 in Hlt; [|done]. by rewrite decide_True.
    + rewrite decide_False; [done|]. intros Hlt.
      apply (percentage_above_20 dups total Hpos) in Hlt.
      by apply (Qlt_not_le _ _ Hlt).
  - destruct (Qlt_le_dec 20 0) as [Hlt|_]; [done|].
    rewrite decide_False; [done|lia].
Qed.

Lemma step_suggestions_shape (dups : list DuplicateStep) (pct : Q) :
  generate_deduplication_suggestions
    (mkReportDict (Some dups) None (Some pct))
  = (if decide (dups = []) then [] else step_suggestions (length dups))
    ++ (if Qlt_le_dec 20 pct then high_duplication_warning else []).
Proof.
  unfold generate_deduplication_suggestions. simpl.
  destruct dups; simpl; destruct (Qlt_le_dec 20 pct);
    by rewrite ?app_nil_r.
Qed.

Lemma locator_suggestions_shape (dups : list DuplicateLocator) (pct : Q) :
  generate_deduplication_suggestions
    (mkReportDict None (Some dups) (Some pct))
  = (if decide (dups = []) then [] else locator_suggestions (length dups))
    ++ (if Qlt_le_dec 20 pct then high_duplication_warning else []).
Proof.
  unfold generate_deduplication_suggestions. simpl.
  destruct dups; simpl; destruct (Qlt_le_dec 20 pct);
    by rewrite ?app_nil_r.
Qed.

(** X7: the suggestions for a report of either check are fixed by two
    counts. The seven-line block for steps (for locators) is there exactly
    when the report has a duplicate group, and states their number; the
    two-line HIGH DUPLICATION warning follows exactly when the total is less
    than five times the number of groups, that is when the percentage, as an
    exact rational, is above 20. A report without duplicates gets no
    suggestion at all. *)
Theorem suggestions_for_checker_reports
    (open_read : string → outcome string) (files : list string) :
  let s := (check_step_duplication open_read files).1 in
  let p := (check_page_object_duplication open_read files).1 in
  generate_deduplication_suggestions (step_report_dict s)
  = (if decide (duplicate_steps s = []) then []
     else step_suggestions (length (duplicate_steps s)))
    ++ (if decide (total_steps s < 5 * length (duplicate_steps s))
        then high_duplication_warning else []) ∧
  generate_deduplication_suggestions (page_report_dict p)
  = (if decide (duplicate_locators p = []) then []
     else locator_suggestions (length (duplicate_locators p)))
    ++ (if decide (total_locators p < 5 * length (duplicate_locators p))
        then high_duplication_warning else []).
Proof.
  intros s p. subst s p.
  rewrite check_page_object_duplication_eq, check_step_duplication_eq.
  cbn [fst]. unfold step_report_dict, page_report_dict.
  cbn [total_locators duplicate_locators page_duplication_percentage
       total_steps duplicate_steps step_duplication_percentage].
  rewrite step_suggestions_shape, locator_suggestions_shape.
  split; f_equal; apply high_duplication_test; rewrite length_fmap;
    apply duplicated_keys_at_most_half.
Qed.

(** ** Duplicate groups: contents and behaviour under more input *)

(** X8: a reported group lists, in scan order, exactly the extracted
    declarations whose normalized value is the group's value: for locators
    their [file::name] locations, for steps their files; [count] is the
    length of that list. *)
Theorem duplicate_group_contents
    (open_read : string → outcome string) (page_files step_files : list string) :
  let p := (check_page_object_duplication open_read page_files).1 in
  let s := (check_step_duplication open_read step_files).1 in
  Forall
    (λ g, dup_locator_locations g
          = locator_location
              <$> occurrences_of locator_key (dup_locator_value g)
                    (extracted_locators open_read page_files) ∧
          dup_locator_count g = length (dup_locator_locations g))
    (duplicate_locators p) ∧
  Forall
    (λ g, dup_step_files g
          = step_file
              <$> occurrences_of step_key (dup_step_pattern g)
                    (extracted_steps open_read step_files) ∧
          dup_step_count g = length (dup_step_files g))
    (duplicate_steps s).
Proof.
  intros p s. subst p s.
  rewrite check_page_object_duplication_eq, check_step_duplication_eq.
  cbn [fst duplicate_locators duplicate_steps].
  split; apply Forall_fmap, Forall_forall; intros k _; simpl;
    by rewrite length_map.
Qed.

Section MoreInput.
Variable open_read : string → outcome string.

Lemma extracted_locators_app (l1 l2 : list string) :
  extracted_locators open_read (l1 ++ l2)
  = extracted_locators open_read l1 ++ extracted_locators open_read l2.
Proof. unfold extracted_locators. apply bind_app. Qed.

Lemma extracted_steps_app (l1 l2 : list string) :
  extracted_steps open_read (l1 ++ l2)
  = extracted_steps open_read l1 ++ extracted_steps open_read l2.
Proof. unfold extracted_steps. apply bind_app. Qed.

End MoreInput.

Lemma elem_of_duplicated_keys_iff {O : Type} (key : O → string)
    (l : list O) (k : string) :
  k ∈ duplicated_keys key l ↔ 1 < length (occurrences_of key k l).
Proof.
  unfold duplicated_keys. rewrite list_elem_of_filter, elem_of_distinct.
  split; [tauto|]. intros Hlen. split; [done|].
  destruct (decide (k ∈ map key l)) as [|Hnin]; [done|].
  rewrite (occurrences_of_nil key k l Hnin) in Hlen. simpl in Hlen. lia.
Qed.

Lemma occurrences_of_app {O : Type} (key : O → string) (k : string)
    (l1 l2 : list O) :
  occurrences_of key k (l1 ++ l2)
  = occurrences_of key k l1 ++ occurrences_of key k l2.
Proof. unfold occurrences_of. apply filter_app. Qed.

Lemma duplicated_keys_app_l {O : Type} (key : O → string) (l1 l2 : list O) :
  duplicated_keys key l1 ⊆ duplicated_keys key (l1 ++ l2).
Proof.
  intros k. rewrite !elem_of_duplicated_keys_iff, occurrences_of_app.
  rewrite length_app. lia.
Qed.

Lemma duplicated_keys_app_r {O : Type} (key : O → string) (l1 l2 : list O) :
  duplicated_keys key l2 ⊆ duplicated_keys key (l1 ++ l2).
Proof.
  intros k. rewrite !elem_of_duplicated_keys_iff, occurrences_of_app.
  rewrite length_app. lia.
Qed.

(** X9: scanning more files never loses a finding. For two file lists
    scanned as one, the total is the sum of the totals, the affected set is
    the union of the affected sets, and every duplicate value of either list
    alone is a duplicate value of the whole. *)
Theorem more_files_keep_duplicates
    (open_read : string → outcome string) (l1 l2 : list string) :
  let p1 := (check_page_object_duplication open_read l1).1 in
  let p2 := (check_page_object_duplication open_read l2).1 in
  let p := (check_page_object_duplication open_read (l1 ++ l2)).1 in
  let s1 := (check_step_duplication open_read l1).1 in
  let s2 := (check_step_duplication open_read l2).1 in
  let s := (check_step_duplication open_read (l1 ++ l2)).1 in
  (total_locators p = total_locators p1 + total_locators p2 ∧
   pages_affected p = pages_affected p1 ∪ pages_affected p2 ∧
   dup_locator_value <$> duplicate_locators p1
     ⊆ dup_locator_value <$> duplicate_locators p ∧
   dup_locator_value <$> duplicate_locators p2
     ⊆ dup_locator_value <$> duplicate_locators p) ∧
  (total_steps s = total_steps s1 + total_steps s2 ∧
   files_affected s = files_affected s1 ∪ files_affected s2 ∧
   dup_step_pattern <$> duplicate_steps s1
     ⊆ dup_step_pattern <$> duplicate_steps s ∧
   dup_step_pattern <$> duplicate_steps s2
     ⊆ dup_step_pattern <$> duplicate_steps s).
Proof.
  cbv zeta.
  rewrite !check_page_object_duplication_eq, !check_step_duplication_eq.
  cbn [fst total_locators pages_affected duplicate_locators
       total_steps files_affected duplicate_steps].
  rewrite !locator_group_keys, !step_group_keys.
  rewrite extracted_locators_app, extracted_steps_app.
  rewrite !length_app, !fmap_app, !list_to_set_app_L.
  split_and!; try done.
  - apply duplicated_keys_app_l.
  - apply duplicated_keys_app_r.
  - apply duplicated_keys_app_l.
  - apply duplicated_keys_app_r.
Qed.

Lemma distinct_app_seen (l1 l2 : list string) :
  (∀ k, k ∈ l2 → k ∈ l1) → distinct (l1 ++ l2) = distinct l1.
Proof.
  induction l2 as [|k l2 IH] using rev_ind; intros Hseen.
  - by rewrite app_nil_r.
  - rewrite app_assoc, distinct_snoc.
    assert (distinct (l1 ++ l2) = distinct l1) as ->.
    { apply IH. intros k' Hk'. apply Hseen, elem_of_app. by left. }
    rewrite decide_True; [done|].
    apply elem_of_distinct, Hseen, elem_of_app. right. left.
Qed.

Lemma filter_all {A : Type} (P : A → Prop) `{!∀ a, Decision (P a)}
    (l : list A) :
  (∀ a, a ∈ l → P a) → filter P l = l.
Proof.
  induction l as [|a l IH]; intros Hall; [done|].
  rewrite filter_cons, decide_True by (apply Hall; left).
  f_equal. apply IH. intros b Hb. apply Hall. by right.
Qed.

Lemma occurrences_of_nonempty {O : Type} (key : O → string) (l : list O)
    (k : string) :
  k ∈ map key l → 0 < length (occurrences_of key k l).
Proof.
  intros Hk. apply list_elem_of_In, in_map_iff in Hk as (o & <- & Ho).
  assert (o ∈ occurrences_of key (key o) l) as Hin.
  { apply list_elem_of_filter. split; [done|]. by apply list_elem_of_In. }
  destruct (occurrences_of key (key o) l); [by apply elem_of_nil in Hin|].
  simpl. lia.
Qed.

Lemma duplicated_keys_twice {O : Type} (key : O → string) (l : list O) :
  duplicated_keys key (l ++ l) = distinct (map key l).
Proof.
  unfold duplicated_keys. rewrite map_app, distinct_app_seen by done.
  apply filter_all. intros k Hk.
  apply (proj1 (elem_of_distinct _ _)) in Hk.
  rewrite occurrences_of_app, length_app.
  pose proof (occurrences_of_nonempty key l k Hk). lia.
Qed.

(** X10: a path listed twice is scanned twice. For a file list followed by
    itself, the total doubles and every normalized value found becomes a
    duplicate: the reported groups are all the distinct values, in
    first-seen order. *)
Theorem files_listed_twice_count_twice
    (open_read : string → outcome string) (files : list string) :
  let p1 := (check_page_object_duplication open_read files).1 in
  let p := (check_page_object_duplication open_read (files ++ files)).1 in
  let s1 := (check_step_duplication open_read files).1 in
  let s := (check_step_duplication open_read (files ++ files)).1 in
  (total_locators p = 2 * total_locators p1 ∧
   dup_locator_value <$> duplicate_locators p
   = distinct (locator_key <$> extracted_locators open_read files)) ∧
  (total_steps s = 2 * total_steps s1 ∧
   dup_step_pattern <$> duplicate_steps s
   = distinct (step_key <$> extracted_steps open_read files)).
Proof.
  cbv zeta.
  rewrite !check_page_object_duplication_eq, !check_step_duplication_eq.
  cbn [fst total_locators duplicate_locators total_steps duplicate_steps].
  rewrite !locator_group_keys, !step_group_keys.
  rewrite extracted_locators_app, extracted_steps_app.
  rewrite !length_app, !duplicated_keys_twice.
  split_and!; try done; lia.
Qed.

Lemma duplicated_keys_Permutation {O : Type} (key : O → string)
    (l l' : list O) :
  l ≡ₚ l' → duplicated_keys key l ≡ₚ duplicated_keys key l'.
Proof.
  intros Hperm. apply NoDup_Permutation; try apply NoDup_duplicated_keys.
  intros k. rewrite !elem_of_duplicated_keys_iff. unfold occurrences_of.
  by rewrite Hperm.
Qed.

(** X11: the order in which the files are scanned does not change what is
    found. For two orderings of the same files the total, the affected set
    and the percentage are equal, and the reports list the same duplicate
    values, in a possibly different order. *)
Theorem scan_order_is_irrelevant
    (open_read : string → outcome string) (files files' : list string) :
  files ≡ₚ files' →
  let p := (check_page_object_duplication open_read files).1 in
  let p' := (check_page_object_duplication open_read files').1 in
  let s := (check_step_duplication open_read files).1 in
  let s' := (check_step_duplication open_read files').1 in
  (total_locators p = total_locators p' ∧
   pages_affected p = pages_affected p' ∧
   page_duplication_percentage p = page_duplication_percentage p' ∧
   dup_locator_value <$> duplicate_locators p
     ≡ₚ dup_locator_value <$> duplicate_locators p') ∧
  (total_steps s = total_steps s' ∧
   files_affected s = files_affected s' ∧
   step_duplication_percentage s = step_duplication_percentage s' ∧
   dup_step_pattern <$> duplicate_steps s
     ≡ₚ dup_step_pattern <$> duplicate_steps s').
Proof.
  intros Hperm. cbv zeta.
  rewrite !check_page_object_duplication_eq, !check_step_duplication_eq.
  cbn [fst total_locators pages_affected duplicate_locators
       page_duplication_percentage total_steps files_affected
       duplicate_steps step_duplication_percentage].
  rewrite !locator_group_keys, !step_group_keys, !length_fmap.
  assert (extracted_locators open_read files
          ≡ₚ extracted_locators open_read files') as Hl
    by (unfold extracted_locators; by rewrite Hperm).
  assert (extracted_steps open_read files
          ≡ₚ extracted_steps open_read files') as Hs
    by (unfold extracted_steps; by rewrite Hperm).
  pose proof (duplicated_keys_Permutation locator_key _ _ Hl) as Hdl.
  pose proof (duplicated_keys_Permutation step_key _ _ Hs) as Hds.
  rewrite (Permutation_length Hl), (Permutation_length Hs).
  rewrite (Permutation_length Hdl), (Permutation_length Hds).
  split_and!; try done.
  - apply list_to_set_perm_L. by rewrite Hl.
  - apply list_to_set_perm_L. by rewrite Hs.
Qed.

Lemma scan_order_is_irrelevant_witness :
  let p := (check_page_object_duplication Sample.open_read
              ["LoginPage.java"; "HomePage.java"; "SubmitPage.java"]).1 in
  let p' := (check_page_object_duplication Sample.open_read
               ["HomePage.java"; "LoginPage.java"; "SubmitPage.java"]).1 in
  total_locators p = total_locators p' ∧
  pages_affected p = pages_affected p' ∧
  page_duplication_percentage p = page_duplication_percentage p' ∧
  dup_locator_value <$> duplicate_locators p
    ≡ₚ dup_locator_value <$> duplicate_locators p'.
Proof.
  apply (scan_order_is_irrelevant Sample.open_read
           ["LoginPage.java"; "HomePage.java"; "SubmitPage.java"]
           ["HomePage.java"; "LoginPage.java"; "SubmitPage.java"]).
  apply perm_swap.
Defined.

(** ** The reported value of a group is normalized *)

Lemma lower_char_idem (c : ascii) :
  Py.lower_char (Py.lower_char c) = Py.lower_char c.
Proof. by destruct c as [[] [] [] [] [] [] [] []]. Qed.

Lemma lower_idem (s : string) : Py.lower (Py.lower s) = Py.lower s.
Proof.
  induction s as [|c s IH]; [done|]. simpl. by rewrite lower_char_idem, IH.
Qed.

Lemma rstrip_idem (s : string) : Py.rstrip (Py.rstrip s) = Py.rstrip s.
Proof.
  induction s as [|c s IH]; [done|]. simpl.
  destruct (Py.rstrip s) as [|c' r] eqn:Hr.
  - destruct (Py.isspace c) eqn:Hc; [done|]. simpl. by rewrite Hc.
  - change (Py.rstrip (String c (String c' r)))
      with (match Py.rstrip (String c' r) with
            | EmptyString =>
                if Py.isspace c then EmptyString else String c EmptyString
            | x => String c x
            end).
    by rewrite IH.
Qed.

(** A string that is empty or begins with a character that is no
    whitespace. *)
Lemma lstrip_fixed (s : string) :
  match s with
  | EmptyString => True
  | String c _ => Py.isspace c = false
  end → Py.lstrip s = s.
Proof. destruct s as [|c s]; [done|]. simpl. by intros ->. Qed.

Lemma lstrip_head (s : string) :
  match Py.lstrip s with
  | EmptyString => True
  | String c _ => Py.isspace c = false
  end.
Proof.
  induction s as [|c s IH]; [done|]. simpl.
  destruct (Py.isspace c) eqn:Hc; [done|]. by simpl.
Qed.

Lemma rstrip_head (s : string) :
  match s with
  | EmptyString => True
  | String c _ => Py.isspace c = false
  end →
  match Py.rstrip s with
  | EmptyString => True
  | String c _ => Py.isspace c = false
  end.
Proof.
  destruct s as [|c s]; [done|]. simpl. intros Hc.
  destruct (Py.rstrip s); by rewrite ?Hc.
Qed.

Lemma strip_idem (s : string) : Py.strip (Py.strip s) = Py.strip s.
Proof.
  unfold Py.strip.
  rewrite (lstrip_fixed (Py.rstrip (Py.lstrip s)))
    by apply rstrip_head, lstrip_head.
  apply rstrip_idem.
Qed.

Lemma locator_key_idem (v : string) :
  Py.lower (Py.strip (Py.lower (Py.strip v))) = Py.lower (Py.strip v).
Proof. by rewrite <- lower_strip, lower_idem, lower_strip, strip_idem. Qed.

(** X12: the value a duplicate group is reported under is normalized
    already. Trimming and lowercasing the value of a locator group, or
    lowercasing the pattern of a step group, gives the same string again, so
    a reported value can serve as the key of its own group. *)
Theorem reported_values_are_normalized
    (open_read : string → outcome string) (page_files step_files : list string) :
  Forall (λ g, Py.lower (Py.strip (dup_locator_value g)) = dup_locator_value g)
    (duplicate_locators
       (check_page_object_duplication open_read page_files).1) ∧
  Forall (λ g, Py.lower (dup_step_pattern g) = dup_step_pattern g)
    (duplicate_steps (check_step_duplication open_read step_files).1).
Proof.
  rewrite check_page_object_duplication_eq, check_step_duplication_eq.
  cbn [fst duplicate_locators duplicate_steps].
  split; apply Forall_fmap, Forall_forall; intros k Hk; simpl;
    apply list_elem_of_filter in Hk as [_ Hk];
    apply (proj1 (elem_of_distinct _ _)), list_elem_of_In, in_map_iff in Hk
      as (o & <- & _).
  - apply locator_key_idem.
  - apply lower_idem.
Qed.

(** ** What the two patterns extract *)

Lemma findall_from_elem {G : Type} (m : string → option (G * string))
    (s : string) (skip : nat) (x : G) :
  x ∈ Re.findall_from m skip s → ∃ s' rest, m s' = Some (x, rest).
Proof.
  revert skip. induction s as [|c s IH]; intros skip; simpl.
  - by intros ?%elem_of_nil.
  - destruct skip as [|k]; [|by apply IH].
    destruct (m (String c s)) as [[g rest]|] eqn:Hm; [|by apply IH].
    intros [->|Hin]%elem_of_cons; [eauto|by eapply IH].
Qed.

Lemma span_all_chars (P : ascii → bool) (s run rest : string) :
  Re.span P s = (run, rest) → all_chars P run = true.
Proof.
  revert run rest. induction s as [|c s IH]; intros run rest; simpl.
  - by intros [= <- _].
  - destruct (P c) eqn:Hc; [|by intros [= <- _]].
    destruct (Re.span P s) as [run' rest'] eqn:Hs.
    intros [= <- _]. simpl. rewrite Hc. by eapply IH.
Qed.

Lemma plus_some (P : ascii → bool) (s run rest : string) :
  Re.plus P s = Some (run, rest) → run ≠ "" ∧ all_chars P run = true.
Proof.
  unfold Re.plus. destruct (Re.span P s) as [run' rest'] eqn:Hs.
  apply span_all_chars in Hs.
  destruct run'; [done|]. by intros [= <- _].
Qed.

Lemma keyword_some (s ty rest : string) :
  Re.keyword s = Some (ty, rest) → ty ∈ ["When"; "Then"; "Given"].
Proof.
  unfold Re.keyword.
  destruct (Re.lit "When" s); [intros [= <- _]; set_solver|].
  destruct (Re.lit "Then" s); [intros [= <- _]; set_solver|].
  destruct (Re.lit "Given" s); [intros [= <- _]; set_solver|done].
Qed.

Lemma step_annotation_some (s ty text rest : string) :
  Re.step_annotation s = Some ((ty, text), rest) →
  ty ∈ ["When"; "Then"; "Given"] ∧ text ≠ "" ∧
  all_chars (λ c, negb (bool_decide (c = Re.dquote))) text = true.
Proof.
  unfold Re.step_annotation. intros H.
  apply bind_Some in H as (s1 & _ & H).
  apply bind_Some in H as ([ty' s2] & Hk & H).
  apply bind_Some in H as (s3 & _ & H).
  apply bind_Some in H as ([text' s4] & Hp & H).
  apply bind_Some in H as (s5 & _ & H).
  injection H as <- <- _.
  apply keyword_some in Hk. apply plus_some in Hp as [? ?]. done.
Qed.

Lemma locator_declaration_some (s name value rest : string) :
  Re.locator_declaration s = Some ((name, value), rest) →
  name ≠ "" ∧ all_chars Py.isword name = true ∧ value ≠ "" ∧
  all_chars (λ c, negb (bool_decide (c = ";"%char))) value = true.
Proof.
  unfold Re.locator_declaration. intros H.
  apply bind_Some in H as (s1 & _ & H).
  apply bind_Some in H as ([name' s2] & Hn & H).
  apply bind_Some in H as (s3 & _ & H).
  apply bind_Some in H as ([value' s4] & Hv & H).
  apply bind_Some in H as (s5 & _ & H).
  injection H as <- <- _.
  apply plus_some in Hn as [? ?]. apply plus_some in Hv as [? ?]. done.
Qed.

(** X13: what the scan can extract at all. Every step found has type When,
    Then or Given and a pattern that is not empty and holds no double quote;
    every locator found has a name that is not empty and consists of word
    characters, and a value that is not empty and holds no semicolon; and
    each comes from one of the files given. *)
Theorem extracted_declarations_are_well_formed
    (open_read : string → outcome string) (page_files step_files : list string) :
  Forall
    (λ o, step_file o ∈ step_files ∧
          step_type o ∈ ["When"; "Then"; "Given"] ∧
          step_pattern o ≠ "" ∧
          all_chars (λ c, negb (bool_decide (c = Re.dquote)))
            (step_pattern o) = true)
    (extracted_steps open_read step_files) ∧
  Forall
    (λ o, locator_file o ∈ page_files ∧
          locator_name o ≠ "" ∧
          all_chars Py.isword (locator_name o) = true ∧
          locator_value o ≠ "" ∧
          all_chars (λ c, negb (bool_decide (c = ";"%char)))
            (locator_value o) = true)
    (extracted_locators open_read page_files).
Proof.
  split; apply Forall_forall; intros o Ho.
  - apply elem_of_extracted_steps in Ho
      as (content & ty & text & Hf & _ & Hm & ->). simpl in *.
    apply findall_from_elem in Hm as (s' & rest & Hm).
    apply step_annotation_some in Hm. tauto.
  - apply elem_of_extracted_locators in Ho
      as (content & name & value & Hf & _ & Hm & ->). simpl in *.
    apply findall_from_elem in Hm as (s' & rest & Hm).
    apply locator_declaration_some in Hm. tauto.
Qed.

(** ** AdvancedE2EOrchestrator: reading the test output *)

Lemma split_lines_cons (s : string) :
  ∃ line lines, PyStr.split_lines s = line :: lines.
Proof.
  destruct s as [|c s]; simpl; [eauto|].
  destruct (decide (c = PyStr.LF)); [eauto|].
  destruct (PyStr.split_lines s); eauto.
Qed.

Lemma prefix_nil_l (s : string) : String.prefix "" s = true.
Proof. by destruct s. Qed.

(** A text without line feed is a prefix of a text exactly when it is a
    prefix of its first line. *)
Lemma prefix_first_line (m s : string) :
  no_line_feed m = true →
  String.prefix m s = String.prefix m (hd "" (PyStr.split_lines s)).
Proof.
  revert s. induction m as [|a m IH]; intros s Hm.
  - by rewrite !prefix_nil_l.
  - unfold no_line_feed in Hm. simpl in Hm.
    apply andb_true_iff in Hm as [Ha Hm].
    apply negb_true_iff, bool_decide_eq_false in Ha.
    destruct s as [|c s]; [done|]. simpl PyStr.split_lines.
    destruct (decide (c = PyStr.LF)) as [->|Hc].
    + simpl. by destruct (ascii_dec a PyStr.LF).
    + destruct (split_lines_cons s) as (line & lines & Hs).
      specialize (IH s Hm). rewrite Hs in IH |- *. simpl in *.
      destruct (ascii_dec a c); [exact IH|done].
Qed.

(** A text without line feed occurs in a text exactly when it occurs in one
    of its lines. *)
Lemma contains_split_lines (m s : string) :
  no_line_feed m = true → m ≠ "" →
  Py.contains m s = existsb (Py.contains m) (PyStr.split_lines s).
Proof.
  intros Hm Hne. destruct m as [|a m]; [done|]. clear Hne.
  induction s as [|c s IH].
  - done.
  - pose proof (prefix_first_line (String a m) (String c s) Hm) as Hp.
    cbn [Py.contains]. rewrite Hp, IH. clear Hp IH.
    simpl PyStr.split_lines.
    destruct (decide (c = PyStr.LF)) as [->|Hc].
    + simpl. done.
    + destruct (split_lines_cons s) as (line & lines & ->).
      cbn [hd existsb Py.contains]. by rewrite orb_assoc.
Qed.

Lemma filter_nil_existsb {A : Type} (f : A → bool) (l : list A) :
  List.filter f l = [] ↔ existsb f l = false.
Proof.
  induction l as [|a l IH]; simpl; [done|].
  destruct (f a); simpl; [split; done|exact IH].
Qed.

Lemma existsb_orb {A : Type} (f g : A → bool) (l : list A) :
  existsb (λ a, f a || g a) l = existsb f l || existsb g l.
Proof.
  induction l as [|a l IH]; simpl; [done|]. rewrite IH.
  destruct (f a), (g a), (existsb f l), (existsb g l); done.
Qed.

Lemma any_failure_line (test_output : string) :
  existsb is_failure_line (PyStr.split_lines test_output)
  = is_failure_line test_output.
Proof.
  unfold is_failure_line. rewrite !existsb_orb.
  by rewrite <- !contains_split_lines.
Qed.

(** X14: [analyze_test_failures] reports success exactly when none of the
    three indicators FAILED, ERROR and Exception occurs anywhere in the test
    output: the line-by-line search is a search of the whole text. *)
Theorem no_failure_indicator_means_success
    (stdout_encodes : string → bool) (test_output : string) :
  (analyze_test_failures stdout_encodes test_output).1 = true ↔
  Py.contains "FAILED" test_output = false ∧
  Py.contains "ERROR" test_output = false ∧
  Py.contains "Exception" test_output = false.
Proof.
  pose proof (any_failure_line test_output) as Hany.
  unfold is_failure_line at 2 in Hany. unfold analyze_test_failures.
  destruct (List.filter is_failure_line (PyStr.split_lines test_output))
    as [|line lines] eqn:Hf; cbn [fst].
  - apply filter_nil_existsb in Hf. rewrite Hf in Hany.
    symmetry in Hany. apply orb_false_iff in Hany as [Hany ?].
    apply orb_false_iff in Hany as [? ?]. done.
  - split; [done|]. intros (H1 & H2 & H3).
    rewrite H1, H2, H3 in Hany. apply filter_nil_existsb in Hany.
    by rewrite Hf in Hany.
Qed.

Lemma rstrip_empty_all_space (s : string) :
  Py.rstrip s = "" → all_space s = true.
Proof.
  induction s as [|c s IH]; [done|]. simpl.
  destruct (Py.rstrip s); [|done].
  destruct (Py.isspace c); [|done]. intros _. by apply IH.
Qed.

Lemma lstrip_all_space_inv (s : string) :
  all_space (Py.lstrip s) = true → all_space s = true.
Proof.
  induction s as [|c s IH]; [done|]. simpl.
  destruct (Py.isspace c) eqn:Hc; [|by simpl; rewrite Hc].
  intros H. by apply IH.
Qed.

Lemma strip_empty_all_space (s : string) :
  Py.strip s = "" → all_space s = true.
Proof.
  unfold Py.strip. intros H.
  by apply lstrip_all_space_inv, rstrip_empty_all_space.
Qed.

Lemma all_space_contains (a : ascii) (m s : string) :
  Py.isspace a = false → all_space s = true →
  Py.contains (String a m) s = false.
Proof.
  intros Ha. induction s as [|c s IH]; [done|].
  simpl. intros [Hc Hs]%andb_true_iff. rewrite (IH Hs).
  destruct (ascii_dec a c) as [->|]; [congruence|done].
Qed.

(** A line with a failure indicator is not blank: the test on
    [failure_line.strip()] never skips a line. *)
Lemma failure_line_not_blank (line : string) :
  is_failure_line line = true → PyStr.truthy (Py.strip line) = true.
Proof.
  intros Hf. destruct (Py.strip line) eqn:Hs; [|done].
  apply strip_empty_all_space in Hs. unfold is_failure_line in Hf.
  rewrite !all_space_contains in Hf by done. done.
Qed.

Lemma classified_iff_known_marker (line : string) :
  match error_type (analyze_failure TestFailureAnalyzer_init line) with
  | Some (String _ _) => has_known_marker line = true
  | _ => has_known_marker line = false
  end.
Proof.
  destruct (analyze_failure_fields TestFailureAnalyzer_init line)
    as (-> & _ & _).
  unfold has_known_marker.
  destruct (List.filter (λ kd, Py.contains kd.1 line)
              (failure_patterns TestFailureAnalyzer_init))
    as [|[k d] rest] eqn:Hf.
  - rewrite match_error_type_none by done. cbn [error_type].
    by apply filter_nil_existsb.
  - rewrite (match_error_type_first _ _ _ _ _ _ Hf). cbn [error_type].
    assert (existsb (λ kd : string * FailureDetails, Py.contains kd.1 line)
              (failure_patterns TestFailureAnalyzer_init) = true) as Hex.
    { destruct (existsb _ _) eqn:He; [done|].
      apply filter_nil_existsb in He. by rewrite Hf in He. }
    apply filter_present_head in Hf as [Hin _]. simpl in Hin.
    repeat (apply elem_of_cons in Hin as [[= -> _]|Hin]; [exact Hex|]).
    by apply elem_of_nil in Hin.
Qed.

Section LogLines.
Variable stdout_encodes : string → bool.

Lemma analysis_lines_app (l1 l2 : list string) :
  analysis_lines (l1 ++ l2) = analysis_lines l1 ++ analysis_lines l2.
Proof. apply List.filter_app. Qed.

Lemma analysis_lines_log_info (m : string) :
  analysis_lines (log stdout_encodes m "INFO") = [].
Proof. unfold log. by destruct (stdout_encodes _). Qed.

Lemma analysis_lines_log_success (m : string) :
  analysis_lines (log stdout_encodes m "SUCCESS") = [].
Proof. unfold log. by destruct (stdout_encodes _). Qed.

Lemma analysis_lines_log_warning (m : string) :
  analysis_lines (log stdout_encodes m "WARNING") = [].
Proof. unfold log. by destruct (stdout_encodes _). Qed.

Lemma log_analysis_shape (m : string) :
  ∃ x, log stdout_encodes m "ANALYSIS" = ["[~] " +:+ x].
Proof. unfold log. destruct (stdout_encodes _); eexists; reflexivity. Qed.

Lemma analysis_lines_log_analysis (m : string) :
  length (analysis_lines (log stdout_encodes m "ANALYSIS")) = 1.
Proof.
  destruct (log_analysis_shape m) as [x ->].
  unfold analysis_lines. cbn [List.filter]. by rewrite prefix_append.
Qed.

Lemma analysis_lines_fixes (l : list (nat * string)) (out : list string) :
  analysis_lines
    (fold_left
       (λ out '(i, fix_text),
          out ++ log stdout_encodes
                   ("  " +:+ Py.str_of_nat i +:+ ". " +:+ fix_text) "INFO")
       l out)
  = analysis_lines out.
Proof.
  revert out. induction l as [|[i x] l IH]; intros out; [done|].
  simpl. rewrite IH, analysis_lines_app, analysis_lines_log_info.
  by rewrite app_nil_r.
Qed.

Lemma analyze_failure_line_count (out : list string) (line : string) :
  is_failure_line line = true →
  length (analysis_lines (analyze_failure_line stdout_encodes out line))
  = length (analysis_lines out) + (if has_known_marker line then 1 else 0).
Proof.
  intros Hf. unfold analyze_failure_line.
  rewrite (failure_line_not_blank line Hf).
  pose proof (classified_iff_known_marker line) as Hk.
  destruct (error_type (analyze_failure TestFailureAnalyzer_init line))
    as [[|c k]|]; rewrite Hk; [lia| |lia].
  rewrite analysis_lines_fixes, !analysis_lines_app, !length_app.
  rewrite analysis_lines_log_analysis, analysis_lines_log_warning.
  rewrite !analysis_lines_log_info. simpl. lia.
Qed.

Lemma analyze_failure_lines_count (lines out : list string) :
  Forall (λ line, is_failure_line line = true) lines →
  length (analysis_lines
            (fold_left (analyze_failure_line stdout_encodes) lines out))
  = length (analysis_lines out)
    + length (List.filter has_known_marker lines).
Proof.
  intros Hall. revert out.
  induction Hall as [|line lines Hf Hall IH]; intros out; simpl; [lia|].
  rewrite IH, analyze_failure_line_count by done.
  destruct (has_known_marker line); simpl; lia.
Qed.

End LogLines.

(** X15: [analyze_test_failures] analyses at most three lines. The lines
    it prints at level ANALYSIS, one per analysis shown, are as many as those
    of the first three lines with a failure indicator that hold a marker of
    the built-in table; the other failure lines are counted in the summary
    line only. *)
Theorem at_most_three_failures_analysed
    (stdout_encodes : string → bool) (test_output : string) :
  let failure_lines :=
    List.filter is_failure_line (PyStr.split_lines test_output) in
  let shown :=
    analysis_lines (analyze_test_failures stdout_encodes test_output).2 in
  length shown = length (List.filter has_known_marker (take 3 failure_lines)) ∧
  length shown ≤ 3.
Proof.
  intros failure_lines shown.
  assert (length shown
          = length (List.filter has_known_marker (take 3 failure_lines)))
    as Hlen.
  { subst shown. unfold analyze_test_failures. fold failure_lines.
    assert (Forall (λ line, is_failure_line line = true) failure_lines)
      as Hall.
    { apply Forall_forall. intros line Hin.
      apply list_elem_of_In, filter_In in Hin. tauto. }
    destruct failure_lines as [|line lines] eqn:Hf; cbn [snd].
    - rewrite analysis_lines_app, analysis_lines_log_success. done.
    - rewrite analyze_failure_lines_count by by apply Forall_take.
      rewrite analysis_lines_app, analysis_lines_log_warning. done. }
  split; [done|]. rewrite Hlen.
  etrans; [apply filter_length_le|]. rewrite length_take. lia.
Qed.

(** ** TestFlowOrchestrator.analyze_test_failure: the printout *)

Lemma recommended_actions_by_markers (self : TestFailureAnalyzer)
    (msg : string) :
  recommended_actions (analyze_failure self msg) =
    if Py.contains "NoSuchElementException" msg then critical_actions
    else if Py.contains "TimeoutException" msg then high_actions
    else [].
Proof.
  unfold analyze_failure, determine_severity, recommend.
  pose proof (match_error_type_keeps (failure_patterns self) msg
                (mkAnalysis None None [] "LOW" [])) as [_ Hkeep].
  revert Hkeep.
  generalize (match_error_type (failure_patterns self) msg
                (mkAnalysis None None [] "LOW" [])) as m.
  intros m Hm. simpl in Hm.
  destruct (Py.contains "NoSuchElementException" msg),
    (Py.contains "TimeoutException" msg),
    (Py.contains "AssertionError" msg);
    cbn; repeat case_decide; try done; cbn; by rewrite ?Hm.
Qed.

Lemma enumerate_lookup {A : Type} (l : list A) (start i : nat) (x : A) :
  l !! i = Some x → enumerate start l !! i = Some (start + i, x).
Proof.
  revert start i. induction l as [|y l IH]; intros start i; [done|].
  destruct i as [|i]; simpl.
  - intros [= ->]. by rewrite Nat.add_0_r.
  - intros Hi. rewrite (IH (S start) i Hi). do 2 f_equal. lia.
Qed.

Lemma enumerate_length {A : Type} (l : list A) (start : nat) :
  length (enumerate start l) = length l.
Proof.
  revert start. induction l as [|y l IH]; intros start; simpl; [done|].
  by rewrite IH.
Qed.

(** X16: the printout of [analyze_test_failure]. It returns the analysis of
    its analyzer unchanged; after seven header lines it prints the fixes of
    the matched signature, one per line, numbered from 1 in table order; the
    section of recommended actions, a heading and four lines, follows
    exactly when the message holds the element-not-found or the timeout
    marker. *)
Theorem analyze_test_failure_printout (analyzer : TestFailureAnalyzer)
    (error_log : string) :
  let a := (analyze_test_failure analyzer error_log).1 in
  let out := (analyze_test_failure analyzer error_log).2 in
  a = analyze_failure analyzer error_log ∧
  length out
  = 7 + length (fixes a)
    + (if Py.contains "NoSuchElementException" error_log
          || Py.contains "TimeoutException" error_log
       then 5 else 0) ∧
  (∀ i fix_text,
     fixes a !! i = Some fix_text →
     out !! (7 + i)
     = Some ("  " +:+ Py.str_of_nat (S i) +:+ ". " +:+ fix_text)).
Proof.
  cbv zeta. unfold analyze_test_failure. cbn [fst snd].
  pose proof (recommended_actions_by_markers analyzer error_log) as Hrec.
  set (a := analyze_failure analyzer error_log) in *.
  set (numbered :=
         map (λ '(i, fix_text),
                "  " +:+ Py.str_of_nat i +:+ ". " +:+ fix_text)
           (enumerate 1 (fixes a))).
  assert (length numbered = length (fixes a)) as Hnum
    by (unfold numbered; by rewrite length_map, enumerate_length).
  assert (∀ i fix_text,
            fixes a !! i = Some fix_text →
            numbered !! i
            = Some ("  " +:+ Py.str_of_nat (S i) +:+ ". " +:+ fix_text))
    as Hlook.
  { intros i x Hi. unfold numbered.
    change (map ?f ?l) with (f <$> l).
    by rewrite list_lookup_fmap, (enumerate_lookup _ 1 i x Hi). }
  split; [done|].
  destruct (recommended_actions a) as [|r rs] eqn:Hr.
  - split.
    + rewrite length_app, Hnum. simpl length.
      destruct (Py.contains "NoSuchElementException" error_log); [done|].
      destruct (Py.contains "TimeoutException" error_log); [done|].
      simpl. lia.
    + intros i x Hi. rewrite lookup_app_r by (simpl; lia).
      replace (7 + i - length _) with i by (simpl; lia). by apply Hlook.
  - split.
    + rewrite !length_app, length_map, Hnum. simpl length.
      destruct (Py.contains "NoSuchElementException" error_log);
        [injection Hrec as -> ->; simpl; lia|].
      destruct (Py.contains "TimeoutException" error_log);
        [injection Hrec as -> ->; simpl; lia|done].
    + intros i x Hi. apply lookup_lt_Some in Hi as Hlt.
      rewrite <- !app_assoc.
      rewrite lookup_app_r by (simpl; lia).
      replace (7 + i - length _) with i by (simpl; lia).
      rewrite lookup_app_l by lia. by apply Hlook.
Qed.

Lemma analyze_test_failure_printout_witness :
  let out :=
    (analyze_test_failure TestFailureAnalyzer_init
       "org.openqa.selenium.TimeoutException: timed out").2 in
  out !! 8 = Some "  2. Wait for element visibility instead of presence".
Proof.
  apply (proj2 (proj2 (analyze_test_failure_printout TestFailureAnalyzer_init
           "org.openqa.selenium.TimeoutException: timed out")) 1).
  reflexivity.
Defined.

(** ** The pre-execution report and its announcement *)

(** X17: the fields of the pre-check report besides readiness. The
    timestamp is the one taken at the start and [locator_integrity] is never
    set; [duplication_check] holds the page-object report exactly when page
    files were discovered, [step_integrity] the step report exactly when step
    files were; with nothing discovered no check runs. [issues] has two
    entries at most. *)
Theorem pre_check_report_fields (open_read : string → outcome string)
    (page_files step_files : list string) (now : string) :
  let r := (check_before_execution open_read page_files step_files now).1 in
  timestamp r = now ∧
  locator_integrity r = None ∧
  duplication_check r =
    match page_files with
    | [] => None
    | _ :: _ => Some (check_page_object_duplication open_read page_files).1
    end ∧
  step_integrity r =
    match step_files with
    | [] => None
    | _ :: _ => Some (check_step_duplication open_read step_files).1
    end ∧
  length (issues r) ≤ 2.
Proof.
  unfold check_before_execution, check_steps, check_pages.
  destruct page_files as [|pf pfs], step_files as [|sf sfs].
  - simpl. split_and!; try done. lia.
  - destruct (check_step_duplication open_read (sf :: sfs)) as [s out].
    cbn [fst]. destruct (duplicate_steps s); simpl; split_and!; try done; lia.
  - destruct (check_page_object_duplication open_read (pf :: pfs))
      as [p out].
    cbn [fst]. destruct (duplicate_locators p); simpl; split_and!;
      try done; lia.
  - destruct (check_page_object_duplication open_read (pf :: pfs))
      as [p out].
    destruct (check_step_duplication open_read (sf :: sfs)) as [s out'].
    cbn [fst].
    destruct (duplicate_locators p), (duplicate_steps s); simpl;
      split_and!; try done; lia.
Qed.

Lemma ready_to_execute_closed (open_read : string → outcome string)
    (page_files step_files : list string) (now : string) :
  ready_to_execute
    (check_before_execution open_read page_files step_files now).1
  = match duplicate_locators
            (check_page_object_duplication open_read page_files).1 with
    | [] => true
    | _ :: _ => false
    end.
Proof.
  unfold check_before_execution.
  destruct (check_pages open_read page_files
              (mkPreCheckReport now None None None true [],
               [newline +:+ "[*] Checking for code duplication..."]))
    as [r1 out1] eqn:Hpages.
  destruct (check_steps_fields open_read step_files r1 out1) as [-> _].
  pose proof (check_pages_fields open_read page_files
    (mkPreCheckReport now None None None true [])
    [newline +:+ "[*] Checking for code duplication..."]) as Hp.
  cbv zeta in Hp. rewrite Hpages in Hp. cbn [fst] in Hp.
  by destruct Hp as [-> _].
Qed.

Lemma ascii_replace_id (m : string) :
  is_ascii m = true → PyStr.ascii_replace m = m.
Proof.
  unfold is_ascii. induction m as [|c m IH]; [done|]. simpl.
  intros [-> Hm]%andb_true_iff. by rewrite IH.
Qed.

(** X18: [log] prints one line, and for a message of ASCII characters the
    line does not depend on whether the first [print] raised an encoding
    error: it is the symbol of the level, a blank and the message. A level
    outside the five known ones gets the symbol of INFO. *)
Theorem log_prints_ascii_unchanged (message level : string) :
  is_ascii message = true →
  ∃ symbol,
    symbol ∈ ["[*]"; "[OK]"; "[!]"; "[?]"; "[~]"] ∧
    (level ∉ ["INFO"; "SUCCESS"; "ERROR"; "WARNING"; "ANALYSIS"] →
     symbol = "[*]") ∧
    ∀ stdout_encodes,
      log stdout_encodes message level = [symbol +:+ " " +:+ message].
Proof.
  intros Hascii. unfold log. cbn [dict_get]. rewrite ascii_replace_id by done.
  repeat case_decide; subst; cbn [default]; eexists;
    (split; [|split; [|intros enc; by destruct (enc _)]]);
    first [ set_solver | intros Hn; exfalso; apply Hn; set_solver | done ].
Qed.

Lemma log_prints_ascii_unchanged_witness :
  ∃ symbol,
    symbol ∈ ["[*]"; "[OK]"; "[!]"; "[?]"; "[~]"] ∧
    ("NOTICE" ∉ ["INFO"; "SUCCESS"; "ERROR"; "WARNING"; "ANALYSIS"] →
     symbol = "[*]") ∧
    ∀ stdout_encodes,
      log stdout_encodes "Tests executed" "NOTICE"
      = [symbol +:+ " " +:+ "Tests executed"].
Proof.
  apply (log_prints_ascii_unchanged "Tests executed" "NOTICE"). reflexivity.
Defined.

(** X19: [run_pre_execution_checks] hands on the report of
    [check_before_execution] as it is, and the last line it prints announces
    readiness exactly when the page objects hold no duplicate locator;
    duplicate steps do not change the announcement. *)
Theorem readiness_announcement
    (stdout_encodes : string → bool) (format_1f : Q → string)
    (open_read : string → outcome string)
    (page_files step_files : list string) (now : string) :
  let run :=
    run_pre_execution_checks stdout_encodes format_1f open_read page_files
      step_files now in
  let p := (check_page_object_duplication open_read page_files).1 in
  run.1 = (check_before_execution open_read page_files step_files now).1 ∧
  last run.2 =
    Some (match duplicate_locators p with
          | [] => "[OK] Framework ready for execution"
          | _ :: _ => "[?] Framework has issues - see above"
          end).
Proof.
  cbv zeta. unfold run_pre_execution_checks.
  pose proof (ready_to_execute_closed open_read page_files step_files now)
    as Hready.
  destruct (check_before_execution open_read page_files step_files now)
    as [r printed].
  cbn [fst] in *. rewrite Hready.
  destruct (duplicate_locators
              (check_page_object_duplication open_read page_files).1);
    cbn [fst snd]; (split; [done|]); unfold log; cbn [dict_get];
    destruct (stdout_encodes _); apply last_snoc.
Qed.

(** ** Which classified lines the orchestrator can overlook *)

Lemma prefix_split (sub s : string) :
  String.prefix sub s = true → ∃ v, s = sub +:+ v.
Proof.
  revert s. induction sub as [|a sub IH]; intros s.
  - intros _. by exists s.
  - destruct s as [|c s]; [done|]. simpl.
    destruct (ascii_dec a c) as [->|]; [|done].
    intros (v & ->)%IH. by exists v.
Qed.

Lemma contains_split (sub s : string) :
  Py.contains sub s = true → ∃ u v, s = u +:+ sub +:+ v.
Proof.
  induction s as [|c s IH]; cbn [Py.contains].
  - rewrite orb_false_r. intros (v & Hv)%prefix_split. by exists "", v.
  - intros [(v & Hv)%prefix_split|(u & v & Hv)%IH]%orb_true_iff.
    + by exists "", v.
    + exists (String c u), v. by rewrite Hv.
Qed.

Lemma contains_middle (u sub v : string) :
  Py.contains sub (u +:+ sub +:+ v) = true.
Proof.
  induction u as [|c u IH]; [exact (contains_here sub v)|].
  change (String c u +:+ sub +:+ v) with (String c (u +:+ sub +:+ v)).
  by apply contains_cons.
Qed.

(** A text that holds [pre ++ m] holds [m]. *)
Lemma contains_tail (pre m s : string) :
  Py.contains (pre +:+ m) s = true → Py.contains m s = true.
Proof.
  intros (u & v & ->)%contains_split.
  rewrite string_app_assoc, <- (string_app_assoc u pre).
  apply contains_middle.
Qed.

(** X20: the only classified lines that [analyze_test_failures] can
    overlook are assertion failures. A line without any of the indicators
    FAILED, ERROR and Exception is either unclassified by the built-in table
    or classified as AssertionError: the five other markers all end in
    Exception and make their line a failure line. *)
Theorem overlooked_lines_are_assertions (line : string) :
  is_failure_line line = false →
  error_type (analyze_failure TestFailureAnalyzer_init line) = None ∨
  error_type (analyze_failure TestFailureAnalyzer_init line)
  = Some "AssertionError".
Proof.
  unfold is_failure_line.
  intros [[_ _]%orb_false_iff Hex]%orb_false_iff.
  assert (∀ pre, Py.contains (pre +:+ "Exception") line = false) as Hno.
  { intros pre. destruct (Py.contains (pre +:+ "Exception") line) eqn:Hc;
      [|done].
    apply contains_tail in Hc. congruence. }
  destruct (analyze_failure_fields TestFailureAnalyzer_init line)
    as (-> & _ & _).
  cbn [failure_patterns TestFailureAnalyzer_init match_error_type].
  rewrite
    (Hno "NoSuchElement"
       : Py.contains "NoSuchElementException" line = false),
    (Hno "StaleElementReference"
       : Py.contains "StaleElementReferenceException" line = false),
    (Hno "Timeout" : Py.contains "TimeoutException" line = false),
    (Hno "ElementNotInteractable"
       : Py.contains "ElementNotInteractableException" line = false),
    (Hno "InvalidElementState"
       : Py.contains "InvalidElementStateException" line = false).
  destruct (Py.contains "AssertionError" line); simpl; auto.
Qed.

Lemma overlooked_lines_are_assertions_witness :
  error_type (analyze_failure TestFailureAnalyzer_init
                "java.lang.AssertionError: expected [true] but found [false]")
    = None ∨
  error_type (analyze_failure TestFailureAnalyzer_init
                "java.lang.AssertionError: expected [true] but found [false]")
    = Some "AssertionError".
Proof.
  apply (overlooked_lines_are_assertions
           "java.lang.AssertionError: expected [true] but found [false]").
  reflexivity.
Defined.
